(** * go-base: account self-service and password-less session handlers

    A shallow embedding of the HTTP handlers of [api/app/account.go]
    (package [app]) and of the session handlers of package [auth]
    (login, token, refresh, logout).  Handlers are programs over the calls
    they make to their collaborators (account store, login-token issuer,
    token-pair generator, clock, UUID source, mailer); running a program
    against an environment yields the response, the final world and the
    sequence of calls that were issued. *)

From Stdlib Require Import ZArith Ascii String List Bool Lia.
From stdpp Require Import base option list gmap strings fin_maps.

Local Open Scope string_scope.
Local Open Scope Z_scope.

(** ** Go values *)

(** [time.Time]: an instant on the integer time line; [t.After(u)] is
    [u < t] and [t.Add(d)] is [t + d]. *)
Definition Time := Z.

Definition After (t u : Time) : bool := u <? t.

(** Go [error] values returned by collaborators.  The handlers only test
    them against [nil], except [update], which switches on the dynamic
    type [validation.Errors]. *)
Inductive error : Type :=
| ValidationErrors (msg : string)
| PlainError (msg : string).

(** A Go result pair [(v, err)]: either a value with a [nil] error or an
    error. *)
Inductive result (A : Type) : Type :=
| Ok (a : A)
| Err (e : error).
Arguments Ok {A} a.
Arguments Err {A} e.

(** ** Programs over collaborator calls *)

(** A handler body: it either returns, or issues a call [e] whose answer
    of type [X] selects how it continues. *)
Inductive Prog (E : Type -> Type) (R : Type) : Type :=
| Ret (r : R)
| Vis (X : Type) (e : E X) (k : X -> Prog E R).
Arguments Ret {E R} r.
Arguments Vis {E R X} e k.

Fixpoint bind {E : Type -> Type} {A B : Type}
    (p : Prog E A) (f : A -> Prog E B) : Prog E B :=
  match p with
  | Ret a => f a
  | Vis e k => Vis e (fun x => bind (k x) f)
  end.

Definition call {E : Type -> Type} {X : Type} (e : E X) : Prog E X :=
  Vis e Ret.

#[global] Instance Prog_ret {E} : MRet (Prog E) := fun _ a => Ret a.
#[global] Instance Prog_bind {E} : MBind (Prog E) := fun _ _ f p => bind p f.

(** One issued call, without its answer. *)
Definition Call (E : Type -> Type) : Type := { X : Type & E X }.

Definition Called {E : Type -> Type} {X : Type} (e : E X) : Call E :=
  existT X e.

(** An environment answers every call and moves the world. *)
Definition Handler (E : Type -> Type) (W : Type) : Type :=
  forall X : Type, E X -> W -> X * W.

(** [run h p w]: the value returned by [p], the world it leaves and the
    calls it issued, in order. *)
Fixpoint run {E : Type -> Type} {R W : Type}
    (h : Handler E W) (p : Prog E R) (w : W) : R * W * list (Call E) :=
  match p with
  | Ret r => (r, w, [])
  | Vis e k =>
      let '(x, w1) := h _ e w in
      let '(r, w2, tr) := run h (k x) w1 in
      (r, w2, Called e :: tr)
  end.

(** ** [strings] and [strconv] *)

Definition byte_is (n : nat) (c : ascii) : bool := Nat.eqb (nat_of_ascii c) n.

(** The six ASCII white-space bytes of [strings.TrimSpace]:
    tab, line feed, vertical tab, form feed, carriage return, space. *)
Definition asciiSpace (c : ascii) : bool :=
  let n := nat_of_ascii c in
  (Nat.leb 9 n && Nat.leb n 13) || Nat.eqb n 32.

(** UTF-8 encodings of the non-ASCII runes for which [unicode.IsSpace]
    holds: U+0085, U+00A0, U+1680, U+2000..U+200A, U+2028, U+2029, U+202F,
    U+205F, U+3000. *)
Definition wideSpaces : list (list nat) :=
  [ [194; 133]; [194; 160]; [225; 154; 128];
    [226; 128; 128]; [226; 128; 129]; [226; 128; 130]; [226; 128; 131];
    [226; 128; 132]; [226; 128; 133]; [226; 128; 134]; [226; 128; 135];
    [226; 128; 136]; [226; 128; 137]; [226; 128; 138];
    [226; 128; 168]; [226; 128; 169]; [226; 128; 175];
    [226; 129; 159]; [227; 128; 128] ]%nat.

Fixpoint has_prefix (p : list nat) (s : list ascii) : bool :=
  match p, s with
  | [], _ => true
  | n :: p', c :: s' => byte_is n c && has_prefix p' s'
  | _ :: _, [] => false
  end.

(** Width in bytes of the white-space rune at the head of [s], [0] when
    the head is not white space.  [encs] lists the wide encodings in the
    reading direction. *)
Definition space_width (encs : list (list nat)) (s : list ascii) : nat :=
  match s with
  | [] => 0%nat
  | c :: _ =>
      if asciiSpace c then 1%nat
      else match List.find (fun p => has_prefix p s) encs with
           | Some p => List.length p
           | None => 0%nat
           end
  end.

Fixpoint trim_head (encs : list (list nat)) (fuel : nat) (s : list ascii)
    : list ascii :=
  match fuel with
  | O => s
  | S fuel' =>
      match space_width encs s with
      | O => s
      | n => trim_head encs fuel' (drop n s)
      end
  end.

(** [strings.TrimSpace]: all leading and trailing white space removed. *)
Definition TrimSpace (s : string) : string :=
  let l := list_ascii_of_string s in
  let l1 := trim_head wideSpaces (List.length l) l in
  let r := rev l1 in
  let r1 := trim_head (List.map (@rev nat) wideSpaces) (List.length r) r in
  string_of_list_ascii (rev r1).

Definition is_digit (c : ascii) : bool :=
  let n := nat_of_ascii c in Nat.leb 48 n && Nat.leb n 57.

Definition is_alpha (c : ascii) : bool :=
  let n := nat_of_ascii c in
  (Nat.leb 65 n && Nat.leb n 90) || (Nat.leb 97 n && Nat.leb n 122).

Fixpoint digits_value (acc : Z) (s : list ascii) : option Z :=
  match s with
  | [] => Some acc
  | c :: s' =>
      if is_digit c
      then digits_value (10 * acc + Z.of_nat (nat_of_ascii c) - 48) s'
      else None
  end.

(** [strconv.Atoi]: an optional sign followed by one or more decimal
    digits, within the range of a 64-bit [int]. *)
Definition Atoi (s : string) : option Z :=
  let l := list_ascii_of_string s in
  let '(neg, ds) :=
    match l with
    | c :: r =>
        if byte_is 45 c then (true, r)
        else if byte_is 43 c then (false, r)
        else (false, l)
    | [] => (false, l)
    end in
  match ds with
  | [] => None
  | _ :: _ =>
      match digits_value 0 ds with
      | None => None
      | Some n =>
          let v := if neg then - n else n in
          if (- 2 ^ 63 <=? v) && (v <? 2 ^ 63) then Some v else None
      end
  end.

(** ** Data model of package [auth] *)

(** Modelled from the spec: the declaration of [auth.Token] is not part of
    the sources; the spec gives the record as {id, token string, expiry,
    updated-at, account id, mobile flag, human-readable identifier}. *)
Record Token : Type := mkToken {
  tk_ID : Z;
  tk_Token : string;
  tk_Expiry : Time;
  tk_UpdatedAt : Time;
  tk_AccountID : Z;
  tk_Mobile : bool;
  tk_Identifier : string
}.

(** Modelled from the spec: the declaration of [auth.Account] is not part
    of the sources; the spec gives an identity record with id, email, name,
    active/eligibility flag, login timestamp, roles and the set of
    associated device tokens. *)
Record Account : Type := mkAccount {
  acc_ID : Z;
  acc_LastLogin : Time;
  acc_Email : string;
  acc_Name : string;
  acc_Active : bool;
  acc_Roles : list string;
  acc_Token : list Token
}.

(** Modelled from the spec: the login token held by the issuer,
    {token string, account id, expiry}. *)
Record LoginToken : Type := mkLoginToken {
  lt_Token : string;
  lt_AccountID : Z;
  lt_Expiry : Time
}.

#[global] Instance error_eq_dec : EqDecision error.
Proof. solve_decision. Defined.
#[global] Instance Token_eq_dec : EqDecision Token.
Proof. solve_decision. Defined.
#[global] Instance Account_eq_dec : EqDecision Account.
Proof. solve_decision. Defined.

(** The zero value of [auth.Token], as left by a composite literal for
    the fields it does not name. *)
Definition Token_zero : Token := mkToken 0 "" 0 0 0 false "".

(** ** Request bodies: [render.Bind] over [encoding/json] *)

(** A parsed JSON text.  [JInt] is a number literal without fraction or
    exponent, [JFrac] any other number literal. *)
#[warnings="-register-all"]
Inductive json : Type :=
| JNull
| JBool (b : bool)
| JInt (z : Z)
| JFrac (lit : string)
| JStr (s : string)
| JArr (l : list json)
| JObj (m : list (string * json)).

(** One field of a Go struct as [encoding/json] sees it: its JSON name
    (the tag, or the Go name when untagged), the embedding depth at which
    it is declared, whether the name comes from a tag, and how a JSON
    value is stored into it ([false]: the value does not fit the field's
    type, the field is left as it was). *)
Record Field (T : Type) : Type := mkField {
  f_name : string;
  f_depth : nat;
  f_tagged : bool;
  f_set : json -> T -> T * bool
}.
Arguments mkField {T} _ _ _ _.
Arguments f_name {T} _.
Arguments f_depth {T} _.
Arguments f_tagged {T} _.
Arguments f_set {T} _ _ _.

(** Go's embedding rule for two fields of one JSON name: the shallower
    one wins; at equal depth a tagged one wins over an untagged one. *)
Definition beats {T} (f g : Field T) : bool :=
  (f_depth f <? f_depth g)%nat
  || ((f_depth f =? f_depth g)%nat && f_tagged f && negb (f_tagged g)).

Fixpoint dominantFields {T} (seen rest : list (Field T)) : list (Field T) :=
  match rest with
  | [] => []
  | f :: rest' =>
      let alone :=
        forallb (fun g => negb (String.eqb (f_name g) (f_name f)) || beats f g)
                (seen ++ rest') in
      if alone then f :: dominantFields (seen ++ [f]) rest'
      else dominantFields (seen ++ [f]) rest'
  end.

(** [typeFields]: the fields a JSON object can reach.  A field hidden by
    a dominant field of the same name is dropped; a name with no dominant
    field is dropped altogether. *)
Definition typeFields {T} (fs : list (Field T)) : list (Field T) :=
  dominantFields [] fs.

(** Functions of libraries outside the repository whose results the
    handlers use without inspecting how they are computed. *)
Class GoLib : Type := {
  (** [bytes.EqualFold] on object keys *)
  EqualFold : string -> string -> bool;
  (** [time.Time.UnmarshalJSON] on the text of a JSON string *)
  Time_UnmarshalJSON : string -> option Time;
  (** decoding of one JSON value into a [*auth.Token] *)
  Token_UnmarshalJSON : json -> option Token;
  (** [strings.ToLower] *)
  ToLower : string -> string;
  (** [is.Email] of ozzo-validation on a non-empty string *)
  is_Email : string -> bool;
  (** [path.Join] of two elements *)
  path_Join : string -> string -> string;
  (** [user_agent.New(s)]: browser name, OS and mobile flag *)
  ua_Browser : string -> string;
  ua_OS : string -> string;
  ua_Mobile : string -> bool
}.

Section Json.
Context `{GoLib}.
Context {T : Type}.

(** The field a key selects: an exact match first, then a match up to
    letter case. *)
Definition findField (fs : list (Field T)) (key : string) : option (Field T) :=
  match List.find (fun f => String.eqb (f_name f) key) fs with
  | Some f => Some f
  | None => List.find (fun f => EqualFold (f_name f) key) fs
  end.

(** Members are stored in the order of the text; an unknown key is
    skipped; a value of the wrong type is reported after the remaining
    members have been stored. *)
Fixpoint decodeMembers (fs : list (Field T)) (m : list (string * json)) (d : T)
    : T * bool :=
  match m with
  | [] => (d, true)
  | (k, v) :: m' =>
      match findField fs k with
      | None => decodeMembers fs m' d
      | Some f =>
          let '(d1, ok1) := f_set f v d in
          let '(d2, ok2) := decodeMembers fs m' d1 in
          (d2, ok1 && ok2)
      end
  end.

(** [json.Decoder.Decode] into a struct. *)
Definition decodeStruct (fs : list (Field T)) (v : json) (d : T) : T * bool :=
  match v with
  | JNull => (d, true)
  | JObj m => decodeMembers (typeFields fs) m d
  | _ => (d, false)
  end.

(** [render.Decode]: [None] is a body that is not a JSON text (or a
    content type the decoder does not know). *)
Definition Decode (fs : list (Field T)) (body : option json) (d : T)
    : T * option error :=
  match body with
  | None => (d, Some (PlainError "render: unable to decode the request body"))
  | Some v =>
      let '(d1, ok) := decodeStruct fs v d in
      (d1, if ok then None else Some (PlainError "json: cannot unmarshal"))
  end.

End Json.

(** Setters for the Go types of the fields that occur.  [null] leaves a
    field of a non-pointer type as it is and empties a slice. *)
Definition set_int {T} (put : Z -> T -> T) (v : json) (d : T) : T * bool :=
  match v with
  | JNull => (d, true)
  | JInt z => if (- 2 ^ 63 <=? z) && (z <? 2 ^ 63) then (put z d, true) else (d, false)
  | _ => (d, false)
  end.

Definition set_bool {T} (put : bool -> T -> T) (v : json) (d : T) : T * bool :=
  match v with
  | JNull => (d, true)
  | JBool b => (put b d, true)
  | _ => (d, false)
  end.

Definition set_string {T} (put : string -> T -> T) (v : json) (d : T) : T * bool :=
  match v with
  | JNull => (d, true)
  | JStr s => (put s d, true)
  | _ => (d, false)
  end.

(** Elements of a [[]string]: a [null] or ill-typed element leaves the
    zero value in its slot. *)
Definition elem_string (v : json) : string * bool :=
  match v with
  | JStr s => (s, true)
  | JNull => ("", true)
  | _ => ("", false)
  end.

Definition set_strings {T} (put : list string -> T -> T) (v : json) (d : T)
    : T * bool :=
  match v with
  | JNull => (put [] d, true)
  | JArr l =>
      let es := List.map elem_string l in
      (put (List.map fst es) d, forallb snd es)
  | _ => (d, false)
  end.

Definition set_time `{GoLib} {T} (put : Time -> T -> T) (v : json) (d : T)
    : T * bool :=
  match v with
  | JNull => (d, true)
  | JStr s => match Time_UnmarshalJSON s with
              | Some t => (put t d, true)
              | None => (d, false)
              end
  | _ => (d, false)
  end.

Definition elem_token `{GoLib} (v : json) : Token * bool :=
  match Token_UnmarshalJSON v with
  | Some t => (t, true)
  | None => (Token_zero, false)
  end.

Definition set_tokens `{GoLib} {T} (put : list Token -> T -> T) (v : json) (d : T)
    : T * bool :=
  match v with
  | JNull => (put [] d, true)
  | JArr l =>
      let es := List.map elem_token l in
      (put (List.map fst es) d, forallb snd es)
  | _ => (d, false)
  end.

(** * Package [app]: the account handler *)

Module app.

(** [AccountStore]: database operations for account, over a database
    state [S].  [Get] is a look-up; the other operations may change the
    database and report a failure.  [Update] receives a pointer and may
    write through it, so it also yields the account as it leaves it. *)
Class AccountStore (S : Type) : Type := {
  Store_Get : Z -> S -> result Account;
  Store_Update : Account -> S -> (Account * option error) * S;
  Store_Delete : Account -> S -> option error * S;
  Store_UpdateToken : Token -> S -> option error * S;
  Store_DeleteToken : Token -> S -> option error * S
}.

(** The calls a handler issues on [rs.Store]. *)
Inductive StoreE : Type -> Type :=
| Get (id : Z) : StoreE (result Account)
| Update (a : Account) : StoreE (Account * option error)
| Delete (a : Account) : StoreE (option error)
| UpdateToken (t : Token) : StoreE (option error)
| DeleteToken (t : Token) : StoreE (option error).

Definition store_handler {S : Type} `{AccountStore S} : Handler StoreE S :=
  fun X e =>
    match e in StoreE X return S -> X * S with
    | Get id => fun s => (Store_Get id s, s)
    | Update a => Store_Update a
    | Delete a => Store_Delete a
    | UpdateToken t => Store_UpdateToken t
    | DeleteToken t => Store_DeleteToken t
    end.

(** What a handler renders. *)
Inductive Response : Type :=
| ErrUnauthorized
| ErrBadRequest
| ErrInvalidRequest (err : error)
| ErrValidation (err : error)
| ErrRender (err : error)
| Respond_account (a : Account)
| Respond_NoBody.

(** [accountCtx]: resolves the account of the validated claims and hands
    it to the next handler. *)
Definition accountCtx (next : Account -> Prog StoreE Response) (claims_ID : Z)
    : Prog StoreE Response :=
  r ← call (Get claims_ID);
  match r with
  | Err _ =>
      (* account deleted while access token still valid *)
      mret ErrUnauthorized
  | Ok account => next account
  end.

(** [accountRequest]: the embedded [*auth.Account] is the caller's account
    object itself; the three protected fields carry the JSON names [id],
    [active] and [roles]. *)
Record accountRequest : Type := mkAccountRequest {
  ar_Account : Account;
  ProtectedID : Z;
  ProtectedActive : bool;
  ProtectedRoles : list string
}.

Definition on_Account (f : Account -> Account) (d : accountRequest)
    : accountRequest :=
  mkAccountRequest (f (ar_Account d)) (ProtectedID d) (ProtectedActive d)
                   (ProtectedRoles d).

Definition put_ID (v : Z) (a : Account) : Account :=
  mkAccount v (acc_LastLogin a) (acc_Email a) (acc_Name a) (acc_Active a)
            (acc_Roles a) (acc_Token a).
Definition put_LastLogin (v : Time) (a : Account) : Account :=
  mkAccount (acc_ID a) v (acc_Email a) (acc_Name a) (acc_Active a)
            (acc_Roles a) (acc_Token a).
Definition put_Email (v : string) (a : Account) : Account :=
  mkAccount (acc_ID a) (acc_LastLogin a) v (acc_Name a) (acc_Active a)
            (acc_Roles a) (acc_Token a).
Definition put_Name (v : string) (a : Account) : Account :=
  mkAccount (acc_ID a) (acc_LastLogin a) (acc_Email a) v (acc_Active a)
            (acc_Roles a) (acc_Token a).
Definition put_Active (v : bool) (a : Account) : Account :=
  mkAccount (acc_ID a) (acc_LastLogin a) (acc_Email a) (acc_Name a) v
            (acc_Roles a) (acc_Token a).
Definition put_Roles (v : list string) (a : Account) : Account :=
  mkAccount (acc_ID a) (acc_LastLogin a) (acc_Email a) (acc_Name a)
            (acc_Active a) v (acc_Token a).
Definition put_Token (v : list Token) (a : Account) : Account :=
  mkAccount (acc_ID a) (acc_LastLogin a) (acc_Email a) (acc_Name a)
            (acc_Active a) (acc_Roles a) v.

Definition put_ProtectedID (v : Z) (d : accountRequest) : accountRequest :=
  mkAccountRequest (ar_Account d) v (ProtectedActive d) (ProtectedRoles d).
Definition put_ProtectedActive (v : bool) (d : accountRequest) : accountRequest :=
  mkAccountRequest (ar_Account d) (ProtectedID d) v (ProtectedRoles d).
Definition put_ProtectedRoles (v : list string) (d : accountRequest)
    : accountRequest :=
  mkAccountRequest (ar_Account d) (ProtectedID d) (ProtectedActive d) v.

Section Handlers.
Context `{GoLib}.

(** Modelled from the spec: the JSON names of the fields of
    [auth.Account] ([id], [last_login], [email], [name], [active], [roles],
    [token]); the struct's declaration is not part of the sources.  They
    are promoted through the embedded pointer, one level down. *)
Definition Account_fields : list (Field accountRequest) :=
  [ mkField "id" 1 true (set_int (fun v => on_Account (put_ID v)));
    mkField "last_login" 1 true (set_time (fun v => on_Account (put_LastLogin v)));
    mkField "email" 1 true (set_string (fun v => on_Account (put_Email v)));
    mkField "name" 1 true (set_string (fun v => on_Account (put_Name v)));
    mkField "active" 1 true (set_bool (fun v => on_Account (put_Active v)));
    mkField "roles" 1 true (set_strings (fun v => on_Account (put_Roles v)));
    mkField "token" 1 true (set_tokens (fun v => on_Account (put_Token v))) ].

(** The struct [accountRequest]: the promoted fields of the embedded
    account, then the three protected fields declared by the struct
    itself. *)
Definition accountRequest_fields : list (Field accountRequest) :=
  Account_fields ++
  [ mkField "id" 0 true (set_int put_ProtectedID);
    mkField "active" 0 true (set_bool put_ProtectedActive);
    mkField "roles" 0 true (set_strings put_ProtectedRoles) ].

(** [accountRequest.Bind]: nothing is overridden (both assignments are
    commented out). *)
Definition accountRequest_Bind (d : accountRequest)
    : accountRequest * option error :=
  (d, None).

(** [render.Bind(r, data)]: decode the body into [data], then run its
    [Bind]. *)
Definition Bind_accountRequest (body : option json) (d : accountRequest)
    : accountRequest * option error :=
  let '(d1, err) := Decode accountRequest_fields body d in
  match err with
  | Some e => (d1, Some e)
  | None => accountRequest_Bind d1
  end.

Definition get (acc : Account) : Prog StoreE Response :=
  mret (Respond_account acc).

(** [update]: [data] embeds the pointer [acc], so what the decoder
    stores through it is what [Store.Update] receives. *)
Definition update (acc : Account) (body : option json) : Prog StoreE Response :=
  let data := mkAccountRequest acc 0 false [] in
  let '(data, err) := Bind_accountRequest body data in
  let acc := ar_Account data in
  match err with
  | Some err => mret (ErrInvalidRequest err)
  | None =>
      '(acc, err) ← call (Update acc);
      match err with
      | Some (ValidationErrors m) => mret (ErrValidation (ValidationErrors m))
      | Some err => mret (ErrRender err)
      | None => mret (Respond_account acc)
      end
  end.

Definition delete (acc : Account) : Prog StoreE Response :=
  err ← call (Delete acc);
  match err with
  | Some err => mret (ErrRender err)
  | None => mret Respond_NoBody
  end.

Record tokenRequest : Type := mkTokenRequest {
  Identifier : string;
  tr_ProtectedID : Z
}.

Definition tokenRequest_fields : list (Field tokenRequest) :=
  [ mkField "Identifier" 0 false
      (set_string (fun v d => mkTokenRequest v (tr_ProtectedID d)));
    mkField "id" 0 true
      (set_int (fun v d => mkTokenRequest (Identifier d) v)) ].

Definition tokenRequest_Bind (d : tokenRequest) : tokenRequest * option error :=
  (mkTokenRequest (TrimSpace (Identifier d)) (tr_ProtectedID d), None).

Definition Bind_tokenRequest (body : option json) (d : tokenRequest)
    : tokenRequest * option error :=
  let '(d1, err) := Decode tokenRequest_fields body d in
  match err with
  | Some e => (d1, Some e)
  | None => tokenRequest_Bind d1
  end.

(** The [range] loop of [updateToken] over the caller's own tokens, with
    the statement after the loop as its end. *)
Fixpoint updateToken_range (id : Z) (data : tokenRequest) (ts : list Token)
    : Prog StoreE Response :=
  match ts with
  | [] => mret Respond_NoBody
  | t :: ts' =>
      if tk_ID t =? id then
        err ← call (UpdateToken
                      (mkToken (tk_ID t) "" 0 0 0 false (Identifier data)));
        match err with
        | Some err => mret (ErrInvalidRequest err)
        | None => updateToken_range id data ts'
        end
      else updateToken_range id data ts'
  end.

Definition updateToken (acc : Account) (tokenID : string) (body : option json)
    : Prog StoreE Response :=
  match Atoi tokenID with
  | None => mret ErrBadRequest
  | Some id =>
      let '(data, err) := Bind_tokenRequest body (mkTokenRequest "" 0) in
      match err with
      | Some err => mret (ErrInvalidRequest err)
      | None => updateToken_range id data (acc_Token acc)
      end
  end.

(** The [range] loop of [deleteToken]; the error of [Store.DeleteToken]
    is not looked at. *)
Fixpoint deleteToken_range (id : Z) (ts : list Token) : Prog StoreE Response :=
  match ts with
  | [] => mret Respond_NoBody
  | t :: ts' =>
      if tk_ID t =? id then
        _ ← call (DeleteToken (mkToken (tk_ID t) "" 0 0 0 false ""));
        deleteToken_range id ts'
      else deleteToken_range id ts'
  end.

Definition deleteToken (acc : Account) (tokenID : string) : Prog StoreE Response :=
  match Atoi tokenID with
  | None => mret ErrBadRequest
  | Some id => deleteToken_range id (acc_Token acc)
  end.

(** The routes of [router()]. *)
Inductive Route : Type :=
| GET_root
| PUT_root
| DELETE_root
| PUT_token (tokenID : string)
| DELETE_token (tokenID : string).

Record Request : Type := mkRequest {
  (** [auth.ClaimsFromCtx(r.Context()).ID] *)
  claims_ID : Z;
  route : Route;
  body : option json
}.

Definition route_handler (r : Request) (acc : Account) : Prog StoreE Response :=
  match route r with
  | GET_root => get acc
  | PUT_root => update acc (body r)
  | DELETE_root => delete acc
  | PUT_token tokenID => updateToken acc tokenID (body r)
  | DELETE_token tokenID => deleteToken acc tokenID
  end.

(** [router()]: every route runs behind [accountCtx]. *)
Definition router (r : Request) : Prog StoreE Response :=
  accountCtx (route_handler r) (claims_ID r).

End Handlers.

(** The protected data of an account: its id, its active flag and its
    roles. *)
Definition protected (a : Account) : Z * bool * list string :=
  (acc_ID a, acc_Active a, acc_Roles a).

(** A call that writes an account writes the protected data of [acc]. *)
Definition keeps_protected (acc : Account) (c : Call StoreE) : Prop :=
  match projT2 c with
  | Update a => protected a = protected acc
  | _ => True
  end.

(** The token that [updateToken] and [deleteToken] hand to the store. *)
Definition renamed (data : string) (t : Token) : Token :=
  mkToken (tk_ID t) "" 0 0 0 false data.

Definition owned (id : Z) (acc : Account) : list Token :=
  List.filter (fun t => tk_ID t =? id) (acc_Token acc).

(** A call that can only concern a token of the caller: a rename or a
    deletion handed a token whose id is [id], one of the ids of the
    caller's own tokens. *)
Definition touches_owned (id : Z) (acc : Account) (c : Call StoreE) : Prop :=
  match projT2 c with
  | UpdateToken t | DeleteToken t =>
      tk_ID t = id /\ In id (List.map tk_ID (acc_Token acc))
  | _ => False
  end.

End app.

(** * Package [auth]: the session lifecycle handler *)

Module auth.

(** The error values presented to the end user, and the unexported
    [errTokenExpired] of the refresh path. *)
Inductive AuthError : Type :=
| ErrInvalidLogin
| ErrUnknownLogin
| ErrLoginDisabled
| ErrLoginToken
| errTokenExpired.

Inductive Response : Type :=
| ErrUnauthorized (err : AuthError)
| ErrInternalServerError
| Respond_NoBody
| Respond_tokenResponse (Access Refresh : string).

(** [email.ContentLoginToken] as the goroutine of [login] fills it. *)
Record ContentLoginToken : Type := mkContent {
  c_Email : string;
  c_Name : string;
  c_URL : string;
  c_Token : string;
  c_Expiry : Time
}.

(** Parts of the repository that the handlers use and whose code is not
    part of the sources: the eligibility predicate [Account.CanLogin],
    the claims of an account and of a token, and the configured refresh
    life time and login URL. *)
Class AuthConfig : Type := {
  AppClaims : Type;
  RefreshClaims : Type;
  CanLogin : Account -> bool;
  Account_Claims : Account -> AppClaims;
  Token_Claims : Token -> RefreshClaims;
  jwtRefreshExpiry : Z;
  loginURL : string
}.

(** The world a handler runs in: the database, the issuer's state, the
    number of clock readings and of UUIDs drawn so far, and the mails
    handed to the mailer. *)
Record World (S L : Type) : Type := mkWorld {
  w_store : S;
  w_login : L;
  w_ticks : nat;
  w_draws : nat;
  w_outbox : list ContentLoginToken
}.
Arguments mkWorld {S L} _ _ _ _ _.
Arguments w_store {S L} _.
Arguments w_login {S L} _.
Arguments w_ticks {S L} _.
Arguments w_draws {S L} _.
Arguments w_outbox {S L} _.

Definition on_store {S L X} (op : S -> X * S) (w : World S L) : X * World S L :=
  let '(x, s) := op (w_store w) in
  (x, mkWorld s (w_login w) (w_ticks w) (w_draws w) (w_outbox w)).

Definition on_login {S L X} (op : L -> X * L) (w : World S L) : X * World S L :=
  let '(x, l) := op (w_login w) in
  (x, mkWorld (w_store w) l (w_ticks w) (w_draws w) (w_outbox w)).

Definition tick {S L} (w : World S L) : World S L :=
  mkWorld (w_store w) (w_login w) (Datatypes.S (w_ticks w)) (w_draws w) (w_outbox w).

Definition draw {S L} (w : World S L) : World S L :=
  mkWorld (w_store w) (w_login w) (w_ticks w) (Datatypes.S (w_draws w)) (w_outbox w).

Definition post {S L} (c : ContentLoginToken) (w : World S L) : World S L :=
  mkWorld (w_store w) (w_login w) (w_ticks w) (w_draws w) (w_outbox w ++ [c]).

Section Calls.
Context `{AuthConfig}.

(** The calls of the handlers on their collaborators: [rs.store],
    [rs.Login], [rs.Token], the clock, the UUID source and the mailer
    (whose call runs in a goroutine of its own; it is recorded where the
    goroutine is started and its error is only logged). *)
Inductive E : Type -> Type :=
| GetByEmail (email : string) : E (result Account)
| GetByID (id : Z) : E (result Account)
| GetByRefreshToken (t : string) : E (result (Account * Token))
| SaveRefreshToken (t : Token) : E (Token * option error)
| DeleteRefreshToken (t : Token) : E (option error)
| UpdateAccount (a : Account) : E (option error)
| CreateToken (id : Z) : E LoginToken
| GetAccountID (token : string) : E (result Z)
| GenTokenPair (ac : AppClaims) (rc : RefreshClaims) : E (result (string * string))
| time_Now : E Time
| uuid_NewV4 : E string
| go_mailer_LoginToken (name email : string) (content : ContentLoginToken) : E unit.

(** Calls that grant or change something: a login token issued, a
    refresh-token record written or deleted, an account written, a pair
    minted, a mail sent. *)
Definition is_CreateToken (c : Call E) : bool :=
  match projT2 c with CreateToken _ => true | _ => false end.
Definition is_SaveRefreshToken (c : Call E) : bool :=
  match projT2 c with SaveRefreshToken _ => true | _ => false end.
Definition is_DeleteRefreshToken (c : Call E) : bool :=
  match projT2 c with DeleteRefreshToken _ => true | _ => false end.
Definition is_UpdateAccount (c : Call E) : bool :=
  match projT2 c with UpdateAccount _ => true | _ => false end.
Definition is_GenTokenPair (c : Call E) : bool :=
  match projT2 c with GenTokenPair _ _ => true | _ => false end.
Definition is_mail (c : Call E) : bool :=
  match projT2 c with go_mailer_LoginToken _ _ _ => true | _ => false end.

(** Calls that change the state of a collaborator. *)
Definition changes_state (c : Call E) : bool :=
  is_CreateToken c || is_SaveRefreshToken c || is_DeleteRefreshToken c
  || is_UpdateAccount c || is_mail c.

(** Calls by which a session is granted or renewed. *)
Definition grants (c : Call E) : bool :=
  is_CreateToken c || is_SaveRefreshToken c || is_GenTokenPair c.

(** ** Request binding *)

Record loginRequest : Type := mkLoginRequest { Email : string }.

Definition loginRequest_fields : list (Field loginRequest) :=
  [ mkField "Email" 0 false (set_string (fun v _ => mkLoginRequest v)) ].

Context `{GoLib}.

(** [validation.Required] followed by [is.Email]. *)
Definition loginRequest_Bind (body : loginRequest)
    : loginRequest * option error :=
  let email := ToLower (TrimSpace (Email body)) in
  (mkLoginRequest email,
   if String.eqb email "" then Some (ValidationErrors "Email: cannot be blank.")
   else if is_Email email then None
   else Some (ValidationErrors "Email: must be a valid email address.")).

Definition Bind_loginRequest (body : option json) (d : loginRequest)
    : loginRequest * option error :=
  let '(d1, err) := Decode loginRequest_fields body d in
  match err with
  | Some e => (d1, Some e)
  | None => loginRequest_Bind d1
  end.

Record tokenRequest : Type := mkTokenRequest { tr_Token : string }.

Definition tokenRequest_fields : list (Field tokenRequest) :=
  [ mkField "token" 0 true (set_string (fun v _ => mkTokenRequest v)) ].

(** [is.Alphanumeric] on a non-empty string: letters [a-z], [A-Z] and
    digits only. *)
Definition IsAlphanumeric (s : string) : bool :=
  forallb (fun c => is_alpha c || is_digit c) (list_ascii_of_string s).

(** [validation.Required] followed by [is.Alphanumeric]. *)
Definition tokenRequest_Bind (body : tokenRequest)
    : tokenRequest * option error :=
  let token := TrimSpace (tr_Token body) in
  (mkTokenRequest token,
   if String.eqb token "" then Some (ValidationErrors "token: cannot be blank.")
   else if IsAlphanumeric token then None
   else Some (ValidationErrors "token: must contain English letters and digits only.")).

Definition Bind_tokenRequest (body : option json) (d : tokenRequest)
    : tokenRequest * option error :=
  let '(d1, err) := Decode tokenRequest_fields body d in
  match err with
  | Some e => (d1, Some e)
  | None => tokenRequest_Bind d1
  end.

(** ** Handlers *)

Definition set_LastLogin (t : Time) (a : Account) : Account :=
  mkAccount (acc_ID a) t (acc_Email a) (acc_Name a) (acc_Active a)
            (acc_Roles a) (acc_Token a).

(** The three assignments by which [refresh] rotates the record it got
    from the store. *)
Definition rotate (token : Token) (u : string) (expiry updated : Time) : Token :=
  mkToken (tk_ID token) u expiry updated (tk_AccountID token)
          (tk_Mobile token) (tk_Identifier token).

Definition login (body : option json) : Prog E Response :=
  let '(body, err) := Bind_loginRequest body (mkLoginRequest "") in
  match err with
  | Some _ => mret (ErrUnauthorized ErrInvalidLogin)
  | None =>
      r ← call (GetByEmail (Email body));
      match r with
      | Err _ => mret (ErrUnauthorized ErrUnknownLogin)
      | Ok acc =>
          if negb (CanLogin acc) then mret (ErrUnauthorized ErrLoginDisabled)
          else
            lt ← call (CreateToken (acc_ID acc));
            _ ← call (go_mailer_LoginToken (acc_Name acc) (acc_Email acc)
                        (mkContent (acc_Email acc) (acc_Name acc)
                                   (path_Join loginURL (lt_Token lt))
                                   (lt_Token lt) (lt_Expiry lt)));
            mret Respond_NoBody
      end
  end.

Definition token (body : option json) (UserAgent : string) : Prog E Response :=
  let '(body, err) := Bind_tokenRequest body (mkTokenRequest "") in
  match err with
  | Some _ => mret (ErrUnauthorized ErrLoginToken)
  | None =>
      r ← call (GetAccountID (tr_Token body));
      match r with
      | Err _ => mret (ErrUnauthorized ErrLoginToken)
      | Ok id =>
          r ← call (GetByID id);
          match r with
          | Err _ =>
              (* account deleted before login token expired *)
              mret (ErrUnauthorized ErrUnknownLogin)
          | Ok acc =>
              if negb (CanLogin acc) then mret (ErrUnauthorized ErrLoginDisabled)
              else
                let browser := ua_Browser UserAgent in
                u ← call uuid_NewV4;
                t1 ← call time_Now;
                t2 ← call time_Now;
                let token :=
                  mkToken 0 u (t1 + jwtRefreshExpiry) t2 (acc_ID acc)
                          (ua_Mobile UserAgent)
                          (String.append browser
                             (String.append " on " (ua_OS UserAgent))) in
                '(token, err) ← call (SaveRefreshToken token);
                match err with
                | Some _ => mret ErrInternalServerError
                | None =>
                    r ← call (GenTokenPair (Account_Claims acc) (Token_Claims token));
                    match r with
                    | Err _ => mret ErrInternalServerError
                    | Ok (access, refresh) =>
                        t3 ← call time_Now;
                        err ← call (UpdateAccount (set_LastLogin t3 acc));
                        match err with
                        | Some _ => mret ErrInternalServerError
                        | None => mret (Respond_tokenResponse access refresh)
                        end
                    end
                end
          end
      end
  end.

Definition refresh (rt : string) : Prog E Response :=
  r ← call (GetByRefreshToken rt);
  match r with
  | Err _ => mret (ErrUnauthorized errTokenExpired)
  | Ok (acc, token) =>
      now ← call time_Now;
      if After now (tk_Expiry token) then
        _ ← call (DeleteRefreshToken token);
        mret (ErrUnauthorized errTokenExpired)
      else if negb (CanLogin acc) then mret (ErrUnauthorized ErrLoginDisabled)
      else
        u ← call uuid_NewV4;
        t1 ← call time_Now;
        t2 ← call time_Now;
        let token := rotate token u (t1 + jwtRefreshExpiry) t2 in
        r ← call (GenTokenPair (Account_Claims acc) (Token_Claims token));
        match r with
        | Err _ => mret ErrInternalServerError
        | Ok (access, refresh) =>
            '(_, err) ← call (SaveRefreshToken token);
            match err with
            | Some _ => mret ErrInternalServerError
            | None =>
                t3 ← call time_Now;
                err ← call (UpdateAccount (set_LastLogin t3 acc));
                match err with
                | Some _ => mret ErrInternalServerError
                | None => mret (Respond_tokenResponse access refresh)
                end
            end
        end
  end.

Definition logout (rt : string) : Prog E Response :=
  r ← call (GetByRefreshToken rt);
  match r with
  | Err _ => mret (ErrUnauthorized errTokenExpired)
  | Ok (_, token) =>
      _ ← call (DeleteRefreshToken token);
      mret Respond_NoBody
  end.



(** ** Environment *)

(** The account store of the session handlers over a database state [S].
    Look-ups leave the database alone.  [SaveRefreshToken] receives a
    pointer and may write through it (the key of a new row), so it also
    yields the record as it leaves it. *)
Class Storer (S : Type) : Type := {
  store_GetByEmail : string -> S -> result Account;
  store_GetByID : Z -> S -> result Account;
  store_GetByRefreshToken : string -> S -> result (Account * Token);
  store_SaveRefreshToken : Token -> S -> (Token * option error) * S;
  store_DeleteRefreshToken : Token -> S -> option error * S;
  store_UpdateAccount : Account -> S -> option error * S
}.

(** The login-token issuer over its own state [L]. *)
Class LoginTokenAuth (L : Type) : Type := {
  Login_CreateToken : Z -> L -> LoginToken * L;
  Login_GetAccountID : string -> L -> result Z
}.

(** What a run draws from outside: the signer of token pairs, the
    readings of successive [time.Now()] calls and the values of
    successive [uuid.NewV4()] calls. *)
Record Ambient : Type := mkAmbient {
  Token_GenTokenPair : AppClaims -> RefreshClaims -> result (string * string);
  clock : nat -> Time;
  uuids : nat -> string
}.

Definition handler {S L : Type} `{Storer S} `{LoginTokenAuth L} (amb : Ambient)
    : Handler E (World S L) :=
  fun X e =>
    match e in E X return World S L -> X * World S L with
    | GetByEmail email => fun w => (store_GetByEmail email (w_store w), w)
    | GetByID id => fun w => (store_GetByID id (w_store w), w)
    | GetByRefreshToken t => fun w => (store_GetByRefreshToken t (w_store w), w)
    | SaveRefreshToken t => on_store (store_SaveRefreshToken t)
    | DeleteRefreshToken t => on_store (store_DeleteRefreshToken t)
    | UpdateAccount a => on_store (store_UpdateAccount a)
    | CreateToken id => on_login (Login_CreateToken id)
    | GetAccountID t => fun w => (Login_GetAccountID t (w_login w), w)
    | GenTokenPair ac rc => fun w => (Token_GenTokenPair amb ac rc, w)
    | time_Now => fun w => (clock amb (w_ticks w), tick w)
    | uuid_NewV4 => fun w => (uuids amb (w_draws w), draw w)
    | go_mailer_LoginToken _ _ content => fun w => (tt, post content w)
    end.

End Calls.

(** The record of [token] for a redeemed login token, as the first
    reading of the UUID source and the next two readings of the clock
    fill it. *)
Definition new_Token `{AuthConfig} `{GoLib} {S L : Type} (amb : Ambient)
    (w : World S L) (acc : Account) (UserAgent : string) : Token :=
  mkToken 0 (uuids amb (w_draws w))
          (clock amb (w_ticks w) + jwtRefreshExpiry)
          (clock amb (Datatypes.S (w_ticks w))) (acc_ID acc)
          (ua_Mobile UserAgent)
          (String.append (ua_Browser UserAgent)
             (String.append " on " (ua_OS UserAgent))).

(** The contract of the store on which the session handlers rely: an
    account resolved by id carries that id and a resolved record carries
    a key; a saved record is what its token string resolves to afterwards (a new
    record under the key the store gives it, a record with a key under
    that key); saving a record under the key of a resolved one makes the
    replaced string unresolvable; a deletion that succeeds makes the
    string of the deleted record unresolvable; writing an account does
    not touch the token records. *)
Class StorerLaws (S : Type) `{Storer S} : Prop := {
  resolved_id : forall (s : S) id a,
    store_GetByID id s = Ok a -> acc_ID a = id;
  resolved_has_key : forall (s : S) x a row,
    store_GetByRefreshToken x s = Ok (a, row) -> tk_ID row <> 0;
  resolved_account : forall (s : S) x a row,
    store_GetByRefreshToken x s = Ok (a, row) ->
    store_GetByID (tk_AccountID row) s = Ok a;
  save_stores : forall (s s' : S) t t' a,
    store_GetByID (tk_AccountID t) s = Ok a ->
    store_SaveRefreshToken t s = ((t', None), s') ->
    store_GetByRefreshToken (tk_Token t) s' = Ok (a, t')
    /\ t' = mkToken (tk_ID t') (tk_Token t) (tk_Expiry t) (tk_UpdatedAt t)
                    (tk_AccountID t) (tk_Mobile t) (tk_Identifier t)
    /\ (tk_ID t <> 0 -> tk_ID t' = tk_ID t);
  save_replaces : forall (s s' : S) old a row t t',
    store_GetByRefreshToken old s = Ok (a, row) ->
    tk_ID t = tk_ID row ->
    tk_Token t <> old ->
    store_SaveRefreshToken t s = ((t', None), s') ->
    exists e, store_GetByRefreshToken old s' = Err e;
  delete_removes : forall (s s' : S) x a row,
    store_GetByRefreshToken x s = Ok (a, row) ->
    store_DeleteRefreshToken row s = (None, s') ->
    exists e, store_GetByRefreshToken x s' = Err e;
  update_account_keeps : forall (s s' : S) acc r x,
    store_UpdateAccount acc s = (r, s') ->
    match store_GetByRefreshToken x s with
    | Ok (_, row) => exists a1, store_GetByRefreshToken x s' = Ok (a1, row)
    | Err _ => exists e, store_GetByRefreshToken x s' = Err e
    end
}.

End auth.

(** * An in-memory database *)

(** Modelled from the spec: the account store is an external collaborator
    ("CRUD for account records and their associated long-lived refresh
    tokens"); its code is not part of the sources.  The model is a table
    of accounts keyed by id and a table of refresh-token rows keyed by the
    token string (the string resolves to at most one row), each row with a
    positive serial id; [down] is a database that refuses every
    operation. *)
Module mem.

Record Row : Type := mkRow {
  r_ID : positive;
  r_Expiry : Time;
  r_UpdatedAt : Time;
  r_AccountID : Z;
  r_Mobile : bool;
  r_Identifier : string
}.

Record DB : Type := mkDB {
  accounts : gmap Z Account;
  tokens : gmap string Row;
  serial : positive;
  down : bool
}.

Definition Token_of (key : string) (r : Row) : Token :=
  mkToken (Zpos (r_ID r)) key (r_Expiry r) (r_UpdatedAt r) (r_AccountID r)
          (r_Mobile r) (r_Identifier r).

Definition Row_of (id : positive) (t : Token) : Row :=
  mkRow id (tk_Expiry t) (tk_UpdatedAt t) (tk_AccountID t) (tk_Mobile t)
        (tk_Identifier t).

Definition refused {A : Type} : result A := Err (PlainError "database is down").
Definition no_rows : error := PlainError "no rows in result set".
Definition not_unique : error := PlainError "duplicate key value".
Definition no_account : error := PlainError "foreign key violation".

Definition with_tokens (f : gmap string Row -> gmap string Row) (db : DB) : DB :=
  mkDB (accounts db) (f (tokens db)) (serial db) (down db).

Definition with_accounts (f : gmap Z Account -> gmap Z Account) (db : DB) : DB :=
  mkDB (f (accounts db)) (tokens db) (serial db) (down db).

(** Rows other than those with serial id [p], and those with it. *)
Definition without_id (p : positive) (m : gmap string Row) : gmap string Row :=
  filter (fun kv : string * Row => r_ID kv.2 ≠ p) m.

Definition with_id (p : positive) (m : gmap string Row) : gmap string Row :=
  filter (fun kv : string * Row => r_ID kv.2 = p) m.

(** The account row of key [id]; the key is the account's id. *)
Definition account_at (id : Z) (db : DB) : option Account :=
  app.put_ID id <$> accounts db !! id.

Definition GetByID (id : Z) (db : DB) : result Account :=
  if down db then refused
  else match account_at id db with
       | Some a => Ok a
       | None => Err no_rows
       end.

Definition GetByEmail (email : string) (db : DB) : result Account :=
  if down db then refused
  else match List.find (fun a => String.eqb (acc_Email a) email)
                       ((fun kv : Z * Account => app.put_ID kv.1 kv.2)
                          <$> map_to_list (accounts db)) with
       | Some a => Ok a
       | None => Err no_rows
       end.

Definition GetByRefreshToken (t : string) (db : DB) : result (Account * Token) :=
  if down db then refused
  else match tokens db !! t with
       | None => Err no_rows
       | Some r =>
           match account_at (r_AccountID r) db with
           | None => Err no_rows
           | Some a => Ok (a, Token_of t r)
           end
       end.

(** A record without a key is inserted under the next serial id; a record
    with a key replaces the row of that key. *)
Definition SaveRefreshToken (t : Token) (db : DB) : (Token * option error) * DB :=
  if down db then ((t, Some (PlainError "database is down")), db)
  else match accounts db !! tk_AccountID t with
  | None => ((t, Some no_account), db)
  | Some _ =>
      match tk_ID t with
      | Z0 =>
          match tokens db !! tk_Token t with
          | Some _ => ((t, Some not_unique), db)
          | None =>
              let id := serial db in
              ((Token_of (tk_Token t) (Row_of id t), None),
               mkDB (accounts db) (<[tk_Token t := Row_of id t]> (tokens db))
                    (Pos.succ id) (down db))
          end
      | Zpos p =>
          if decide (with_id p (tokens db) = ∅) then ((t, Some no_rows), db)
          else
            let others := without_id p (tokens db) in
            match others !! tk_Token t with
            | Some _ => ((t, Some not_unique), db)
            | None =>
                ((t, None), with_tokens (fun _ => <[tk_Token t := Row_of p t]> others) db)
            end
      | Zneg _ => ((t, Some no_rows), db)
      end
  end.

Definition delete_id (id : Z) (m : gmap string Row) : gmap string Row :=
  match id with
  | Zpos p => without_id p m
  | _ => m
  end.

Definition DeleteRefreshToken (t : Token) (db : DB) : option error * DB :=
  if down db then (Some (PlainError "database is down"), db)
  else (None, with_tokens (delete_id (tk_ID t)) db).

Definition UpdateAccount (a : Account) (db : DB) : option error * DB :=
  if down db then (Some (PlainError "database is down"), db)
  else match accounts db !! acc_ID a with
       | None => (Some no_rows, db)
       | Some _ => (None, with_accounts (<[acc_ID a := a]>) db)
       end.

#[global] Instance DB_Storer : auth.Storer DB := {|
  auth.store_GetByEmail := GetByEmail;
  auth.store_GetByID := GetByID;
  auth.store_GetByRefreshToken := GetByRefreshToken;
  auth.store_SaveRefreshToken := SaveRefreshToken;
  auth.store_DeleteRefreshToken := DeleteRefreshToken;
  auth.store_UpdateAccount := UpdateAccount
|}.

(** The account with its token relation loaded, as the account handler
    receives it. *)
Definition tokens_of (id : Z) (db : DB) : list Token :=
  (fun kv : string * Row => Token_of kv.1 kv.2) <$>
  map_to_list (filter (fun kv : string * Row => r_AccountID kv.2 = id) (tokens db)).

Definition Get (id : Z) (db : DB) : result Account :=
  match GetByID id db with
  | Ok a => Ok (app.put_Token (tokens_of id db) a)
  | Err e => Err e
  end.

(** The account handler's [Update] writes the e-mail address and the name
    only, after validating them. *)
Definition Update (a : Account) (db : DB) : (Account * option error) * DB :=
  if down db then ((a, Some (PlainError "database is down")), db)
  else if String.eqb (acc_Email a) ""
  then ((a, Some (ValidationErrors "email: cannot be blank.")), db)
  else match accounts db !! acc_ID a with
       | None => ((a, Some no_rows), db)
       | Some old =>
           ((a, None),
            with_accounts
              (<[acc_ID a := app.put_Name (acc_Name a) (app.put_Email (acc_Email a) old)]>)
              db)
       end.

Definition Delete (a : Account) (db : DB) : option error * DB :=
  if down db then (Some (PlainError "database is down"), db)
  else (None,
        mkDB (delete (acc_ID a) (accounts db))
             (filter (fun kv : string * Row => r_AccountID kv.2 ≠ acc_ID a) (tokens db))
             (serial db) (down db)).

Definition rename (id : Z) (name : string) (r : Row) : Row :=
  if decide (Zpos (r_ID r) = id)
  then mkRow (r_ID r) (r_Expiry r) (r_UpdatedAt r) (r_AccountID r) (r_Mobile r) name
  else r.

Definition UpdateToken (t : Token) (db : DB) : option error * DB :=
  if down db then (Some (PlainError "database is down"), db)
  else (None, with_tokens (fmap (rename (tk_ID t) (tk_Identifier t))) db).

Definition DeleteToken (t : Token) (db : DB) : option error * DB :=
  DeleteRefreshToken t db.

#[global] Instance DB_AccountStore : app.AccountStore DB := {|
  app.Store_Get := Get;
  app.Store_Update := Update;
  app.Store_Delete := Delete;
  app.Store_UpdateToken := UpdateToken;
  app.Store_DeleteToken := DeleteToken
|}.

(** Modelled from the spec: the login-token issuer ("generates a token
    with configured TTL, associates it with accountID, makes it resolvable
    until expiry"); its code is not part of the sources.  [i_now] is the
    issuer's own reading of the time and [i_fresh] its source of token
    strings. *)
Record Issuer : Type := mkIssuer {
  i_issued : list LoginToken;
  i_now : Time;
  i_ttl : Z;
  i_fresh : nat -> string
}.

Definition CreateToken (id : Z) (l : Issuer) : LoginToken * Issuer :=
  let lt := mkLoginToken (i_fresh l (List.length (i_issued l))) id (i_now l + i_ttl l) in
  (lt, mkIssuer (lt :: i_issued l) (i_now l) (i_ttl l) (i_fresh l)).

Definition GetAccountID (token : string) (l : Issuer) : result Z :=
  match List.find (fun lt => String.eqb (lt_Token lt) token) (i_issued l) with
  | Some lt =>
      if After (i_now l) (lt_Expiry lt) then Err (PlainError "login token not found")
      else Ok (lt_AccountID lt)
  | None => Err (PlainError "login token not found")
  end.

#[global] Instance Issuer_LoginTokenAuth : auth.LoginTokenAuth Issuer := {|
  auth.Login_CreateToken := CreateToken;
  auth.Login_GetAccountID := GetAccountID
|}.

(** Stand-ins for the library functions: keys are compared up to ASCII
    letter case, times are decimal numbers, device tokens in a request body
    are not decoded, every non-empty address passes, and the user agent
    is reported as it is. *)
Definition lower (c : ascii) : ascii :=
  let n := nat_of_ascii c in
  if (Nat.leb 65 n && Nat.leb n 90)%bool then ascii_of_nat (n + 32) else c.

Definition lower_string (s : string) : string :=
  string_of_list_ascii (List.map lower (list_ascii_of_string s)).

#[global] Instance lib : GoLib := {|
  EqualFold := fun a b => String.eqb (lower_string a) (lower_string b);
  Time_UnmarshalJSON := Atoi;
  Token_UnmarshalJSON := fun _ => None;
  ToLower := lower_string;
  is_Email := fun _ => true;
  path_Join := fun a b => String.append a (String.append "/" b);
  ua_Browser := fun s => s;
  ua_OS := fun _ => "Linux";
  ua_Mobile := fun _ => false
|}.

(** An account may log in when it is active; the claims are the account
    and the token themselves; refresh tokens live for 3600 time units. *)
#[global] Instance config : auth.AuthConfig := {|
  auth.AppClaims := Account;
  auth.RefreshClaims := Token;
  auth.CanLogin := acc_Active;
  auth.Account_Claims := fun a => a;
  auth.Token_Claims := fun t => t;
  auth.jwtRefreshExpiry := 3600;
  auth.loginURL := "/login"
|}.

(** A signer that signs, and one that fails. *)
Definition sign (a : Account) (t : Token) : result (string * string) :=
  Ok (String.append "access:" (acc_Email a), String.append "refresh:" (tk_Token t)).

Definition sign_fails (a : Account) (t : Token) : result (string * string) :=
  Err (PlainError "signing failed").

Definition uuid_of (n : nat) : string :=
  match n with
  | O => "uuid0"
  | 1%nat => "uuid1"
  | 2%nat => "uuid2"
  | _ => "uuidN"
  end.

Definition ambient : auth.Ambient :=
  auth.mkAmbient sign (fun n => 100 + Z.of_nat n) uuid_of.

Definition ambient_unsigned : auth.Ambient :=
  auth.mkAmbient sign_fails (fun n => 100 + Z.of_nat n) uuid_of.

(** The same database behind an account table that cannot be written:
    every account update is refused and changes nothing; token rows are
    read and written as before. *)
Record Frozen : Type := mkFrozen { thaw : DB }.

Definition frozen {X : Type} (r : X * DB) : X * Frozen := (r.1, mkFrozen r.2).

#[global] Instance Frozen_Storer : auth.Storer Frozen := {|
  auth.store_GetByEmail := fun e f => GetByEmail e (thaw f);
  auth.store_GetByID := fun id f => GetByID id (thaw f);
  auth.store_GetByRefreshToken := fun t f => GetByRefreshToken t (thaw f);
  auth.store_SaveRefreshToken := fun t f => frozen (SaveRefreshToken t (thaw f));
  auth.store_DeleteRefreshToken := fun t f => frozen (DeleteRefreshToken t (thaw f));
  auth.store_UpdateAccount := fun _ f => (Some (PlainError "accounts are read-only"), f)
|}.

(** The same database behind a token table from which nothing can be
    deleted: every deletion is refused and changes nothing; everything
    else is read and written as before. *)
Record Sticky : Type := mkSticky { loose : DB }.

Definition sticky {X : Type} (r : X * DB) : X * Sticky := (r.1, mkSticky r.2).

#[global] Instance Sticky_Storer : auth.Storer Sticky := {|
  auth.store_GetByEmail := fun e f => GetByEmail e (loose f);
  auth.store_GetByID := fun id f => GetByID id (loose f);
  auth.store_GetByRefreshToken := fun t f => GetByRefreshToken t (loose f);
  auth.store_SaveRefreshToken := fun t f => sticky (SaveRefreshToken t (loose f));
  auth.store_DeleteRefreshToken := fun _ f => (Some (PlainError "deletion refused"), f);
  auth.store_UpdateAccount := fun a f => sticky (UpdateAccount a (loose f))
|}.


End mem.

(** * A small world

    Alice may log in, Bob may not.  Alice owns a live refresh token
    ([r1]) and an expired one ([old]); Bob owns a live one ([rb]) and an
    expired one ([ob]).  The issuer holds one login token for each. *)
Module sample.

Definition alice : Account := mkAccount 1 0 "alice@example.com" "Alice" true [] [].
Definition bob : Account := mkAccount 2 0 "bob@example.com" "Bob" false [] [].

Definition db0 : mem.DB :=
  mem.mkDB
    (<[1 := alice]> (<[2 := bob]> ∅))
    (<["r1" := mem.mkRow 1 5000 10 1 false "Firefox on Linux"]>
     (<["old" := mem.mkRow 2 50 10 1 false "Safari on iOS"]>
      (<["rb" := mem.mkRow 3 5000 10 2 false "Firefox on Linux"]>
       (<["ob" := mem.mkRow 4 50 10 2 true "Chrome on Android"]> ∅))))
    5 false.

Definition db_down : mem.DB :=
  mem.mkDB (mem.accounts db0) (mem.tokens db0) (mem.serial db0) true.

Definition issuer0 : mem.Issuer :=
  mem.mkIssuer [mkLoginToken "abc1" 1 500; mkLoginToken "bob2" 2 500] 100 300
               (fun _ => "next").

Definition w0 : auth.World mem.DB mem.Issuer := auth.mkWorld db0 issuer0 0 0 [].

Definition r1 : Token := mkToken 1 "r1" 5000 10 1 false "Firefox on Linux".
Definition ob : Token := mkToken 4 "ob" 50 10 2 true "Chrome on Android".

(** Alice with her tokens loaded, as the account handler sees her. *)
Definition alice_loaded : Account :=
  mkAccount 1 0 "alice@example.com" "Alice" true []
            [mkToken 2 "old" 50 10 1 false "Safari on iOS"; r1].

Definition token_body (t : string) : option json :=
  Some (JObj [("token", JStr t)]).

Definition login_body (email : string) : option json :=
  Some (JObj [("email", JStr email)]).

Definition rename_body (name : string) : option json :=
  Some (JObj [("identifier", JStr name)]).

(** A second database: the UUID that the next request will draw is
    already the string of a stored token, and Alice owns a token [edge]
    that expires at the very instant of the first clock reading. *)
Definition db1 : mem.DB :=
  mem.mkDB (mem.accounts db0)
    (<["uuid0" := mem.mkRow 5 5000 10 2 false "Edge on Windows"]>
     (<["edge" := mem.mkRow 6 100 10 1 false "Opera on Linux"]> (mem.tokens db0)))
    7 false.

Definition w1 : auth.World mem.DB mem.Issuer := auth.mkWorld db1 issuer0 0 0 [].

Definition w_frozen : auth.World mem.Frozen mem.Issuer :=
  auth.mkWorld (mem.mkFrozen db0) issuer0 0 0 [].

Definition edge : Token := mkToken 6 "edge" 100 10 1 false "Opera on Linux".

Definition account_body (name email : string) : option json :=
  Some (JObj [("name", JStr name); ("email", JStr email)]).

Definition w_sticky : auth.World mem.Sticky mem.Issuer :=
  auth.mkWorld (mem.mkSticky db0) issuer0 0 0 [].

End sample.

(** * Properties *)

(** ** Request validation *)

Lemma TrimSpace_surrounding_blanks : TrimSpace "  abc1 " = "abc1".
Proof. reflexivity. Qed.

(** A no-break space (U+00A0) in front and an em space (U+2003) behind
    are white space as well. *)
Lemma TrimSpace_wide_blanks :
  TrimSpace (string_of_list_ascii
               (List.map ascii_of_nat [194; 160; 97; 226; 128; 131]%nat))
  = "a".
Proof. reflexivity. Qed.

Lemma Atoi_signed : Atoi "-42" = Some (-42).
Proof. reflexivity. Qed.

Lemma Atoi_rejects_letters : Atoi "4x" = None.
Proof. reflexivity. Qed.

Lemma findField_In `{GoLib} {T : Type} (fs : list (Field T)) key f :
  findField fs key = Some f -> In f fs.
Proof.
  unfold findField.
  destruct (List.find _ fs) as [g|] eqn:Hexact.
  - intros [= <-]. apply List.find_some in Hexact. tauto.
  - intros Hfold. apply List.find_some in Hfold. tauto.
Qed.

(** Storing the members of an object keeps every property of the target
    that each reachable field's setter keeps. *)
Lemma decodeMembers_preserves `{GoLib} {T : Type} (P : T -> Prop)
    (fs : list (Field T)) :
  (forall f v d, In f fs -> P d -> P (f_set f v d).1) ->
  forall m d, P d -> P (decodeMembers fs m d).1.
Proof.
  intros Hset m. induction m as [| [k v] m IH]; intros d Hd; simpl.
  - exact Hd.
  - destruct (findField fs k) as [f|] eqn:Hf.
    + pose proof (Hset f v d (findField_In _ _ _ Hf) Hd) as H1.
      destruct (f_set f v d) as [d1 ok1]. simpl in H1.
      pose proof (IH d1 H1) as H2.
      destruct (decodeMembers fs m d1) as [d2 ok2]. exact H2.
    + apply IH, Hd.
Qed.

Lemma Decode_preserves `{GoLib} {T : Type} (P : T -> Prop)
    (fs : list (Field T)) :
  (forall f v d, In f (typeFields fs) -> P d -> P (f_set f v d).1) ->
  forall body d, P d -> P (Decode fs body d).1.
Proof.
  intros Hset body d Hd. unfold Decode.
  destruct body as [v|]; [| exact Hd].
  destruct (decodeStruct fs v d) as [d1 ok] eqn:Hdec. simpl.
  change d1 with (d1, ok).1. rewrite <- Hdec.
  unfold decodeStruct. destruct v; try exact Hd.
  apply decodeMembers_preserves; assumption.
Qed.

(** ** The account handler *)

Section AccountHandler.
Context `{GoLib}.

(** The fields of [accountRequest] that a JSON object can reach: [id],
    [active] and [roles] select the protected fields of the request and
    never those of the embedded account. *)
Lemma accountRequest_reachable :
  List.map (fun f => (f_name f, f_depth f)) (typeFields app.accountRequest_fields)
  = [("last_login", 1%nat); ("email", 1%nat); ("name", 1%nat); ("token", 1%nat);
     ("id", 0%nat); ("active", 0%nat); ("roles", 0%nat)].
Proof. reflexivity. Qed.

Lemma accountRequest_setters f v d :
  In f (typeFields app.accountRequest_fields) ->
  app.protected (app.ar_Account (f_set f v d).1) = app.protected (app.ar_Account d).
Proof.
  intros Hin. cbv [typeFields app.accountRequest_fields app.Account_fields
                   dominantFields app forallb beats f_name f_depth f_tagged
                   String.eqb Ascii.eqb Bool.eqb negb orb andb Nat.ltb Nat.leb
                   Nat.eqb] in Hin.
  simpl in Hin.
  repeat (destruct Hin as [<- | Hin]); try contradiction; simpl;
    unfold set_time, set_string, set_tokens, set_int, set_bool, set_strings;
    destruct v; simpl; try reflexivity.
  - destruct (Time_UnmarshalJSON s); reflexivity.
  - destruct ((- 2 ^ 63 <=? z) && (z <? 2 ^ 63)); reflexivity.
Qed.

End AccountHandler.

Section AccountHandlerClaims.
Context `{GoLib}.
Context {S : Type} `{app.AccountStore S}.

Lemma Bind_accountRequest_protected body d :
  app.protected (app.ar_Account (app.Bind_accountRequest body d).1)
  = app.protected (app.ar_Account d).
Proof.
  unfold app.Bind_accountRequest.
  pose proof (Decode_preserves
    (fun d' => app.protected (app.ar_Account d') = app.protected (app.ar_Account d))
    app.accountRequest_fields) as HD.
  specialize (HD (fun f v d' Hin Hd' =>
    eq_trans (accountRequest_setters f v d' Hin) Hd') body d eq_refl).
  destruct (Decode app.accountRequest_fields body d) as [d1 [e|]]; exact HD.
Qed.

(** C7: whatever the body of an account update holds under [id],
    [active] and [roles], binding it onto the caller's account leaves the
    account's id, active flag and roles as they were; the account that
    [update] then hands to the store carries them unchanged. *)
Theorem update_ignores_protected_fields (acc : Account) (body : option json) (s : S) :
  app.protected
    (app.ar_Account (app.Bind_accountRequest body (app.mkAccountRequest acc 0 false [])).1)
  = app.protected acc
  /\ Forall (app.keeps_protected acc)
            (run app.store_handler (app.update acc body) s).2.
Proof.
  pose proof (Bind_accountRequest_protected body (app.mkAccountRequest acc 0 false []))
    as Hb.
  split; [exact Hb |].
  unfold app.update.
  destruct (app.Bind_accountRequest body (app.mkAccountRequest acc 0 false []))
    as [data [e|]]; simpl in *.
  - constructor.
  - destruct (app.Store_Update (app.ar_Account data) s) as [[a' [e|]] s1]; simpl.
    + destruct e; simpl; repeat constructor; exact Hb.
    + repeat constructor. exact Hb.
Qed.

(** C8: when the store cannot resolve the account id of the validated
    claims, every route answers unauthorized after the look-up alone, and
    the answer does not depend on the handler behind the middleware, which
    is not run. *)
Theorem accountCtx_rejects_unknown_account (r : app.Request) (s : S) (e : error) :
  app.Store_Get (app.claims_ID r) s = Err e ->
  run app.store_handler (app.router r) s
  = (app.ErrUnauthorized, s, [Called (app.Get (app.claims_ID r))])
  /\ forall next : Account -> Prog app.StoreE app.Response,
       run app.store_handler (app.accountCtx next (app.claims_ID r)) s
       = (app.ErrUnauthorized, s, [Called (app.Get (app.claims_ID r))]).
Proof.
  intros Hget.
  assert (Hany : forall next : Account -> Prog app.StoreE app.Response,
             run app.store_handler (app.accountCtx next (app.claims_ID r)) s
             = (app.ErrUnauthorized, s, [Called (app.Get (app.claims_ID r))])).
  { intros next. unfold app.accountCtx. simpl. rewrite Hget. reflexivity. }
  split; [apply Hany | exact Hany].
Qed.

Lemma updateToken_range_foreign id data ts :
  ~ In id (List.map tk_ID ts) ->
  app.updateToken_range id data ts = Ret app.Respond_NoBody.
Proof.
  induction ts as [| t ts IH]; simpl; intros Hnot; [reflexivity |].
  destruct (Z.eqb_spec (tk_ID t) id) as [Heq | Hne].
  - exfalso. apply Hnot. left. exact Heq.
  - apply IH. intros Hin. apply Hnot. right. exact Hin.
Qed.

Lemma deleteToken_range_foreign id ts :
  ~ In id (List.map tk_ID ts) ->
  app.deleteToken_range id ts = Ret app.Respond_NoBody.
Proof.
  induction ts as [| t ts IH]; simpl; intros Hnot; [reflexivity |].
  destruct (Z.eqb_spec (tk_ID t) id) as [Heq | Hne].
  - exfalso. apply Hnot. left. exact Heq.
  - apply IH. intros Hin. apply Hnot. right. exact Hin.
Qed.

(** A request that does not pass input validation (a token id that is
    not a number, a rename whose body does not bind) is turned away
    before the caller's tokens are looked at. *)
Lemma malformed_token_request (acc : Account) (tokenID : string)
    (body : option json) :
  (Atoi tokenID = None ->
   app.updateToken acc tokenID body = Ret app.ErrBadRequest
   /\ app.deleteToken acc tokenID = Ret app.ErrBadRequest)
  /\ (forall id e,
        Atoi tokenID = Some id ->
        (app.Bind_tokenRequest body (app.mkTokenRequest "" 0)).2 = Some e ->
        app.updateToken acc tokenID body = Ret (app.ErrInvalidRequest e)).
Proof.
  unfold app.updateToken, app.deleteToken. split.
  - intros ->. split; reflexivity.
  - intros id e -> Hbind.
    destruct (app.Bind_tokenRequest body (app.mkTokenRequest "" 0)) as [data err].
    simpl in Hbind. subst err. reflexivity.
Qed.

(** A well-formed request to rename or delete a device token whose id is
    not among the caller's own tokens is answered with success and no body
    (for a rename: when its body binds); the only call on the store is the
    look-up of the caller's account by the middleware, and the database is
    left as it was, whatever the body holds. *)
Theorem foreign_token_is_noop (cid : Z) (tokenID : string) (id : Z)
    (acc : Account) (s : S) :
  app.Store_Get cid s = Ok acc ->
  Atoi tokenID = Some id ->
  ~ In id (List.map tk_ID (acc_Token acc)) ->
  (forall body,
      (app.Bind_tokenRequest body (app.mkTokenRequest "" 0)).2 = None ->
      run app.store_handler
          (app.router (app.mkRequest cid (app.PUT_token tokenID) body)) s
      = (app.Respond_NoBody, s, [Called (app.Get cid)]))
  /\ (forall body,
      run app.store_handler
          (app.router (app.mkRequest cid (app.DELETE_token tokenID) body)) s
      = (app.Respond_NoBody, s, [Called (app.Get cid)]))
  /\ (forall body,
      let '(_, s', tr) :=
        run app.store_handler
            (app.router (app.mkRequest cid (app.PUT_token tokenID) body)) s in
      s' = s /\ tr = [Called (app.Get cid)]).
Proof.
  intros Hget Hid Hnot.
  unfold app.router, app.accountCtx, app.route_handler; simpl.
  rewrite Hget. unfold app.updateToken, app.deleteToken. rewrite Hid.
  rewrite (deleteToken_range_foreign id _ Hnot).
  split; [| split].
  - intros body Hbind.
    destruct (app.Bind_tokenRequest body (app.mkTokenRequest "" 0)) as [data err].
    simpl in Hbind. subst err.
    rewrite (updateToken_range_foreign id data _ Hnot). reflexivity.
  - intros body. reflexivity.
  - intros body.
    destruct (app.Bind_tokenRequest body (app.mkTokenRequest "" 0)) as [data [e|]].
    + split; reflexivity.
    + rewrite (updateToken_range_foreign id data _ Hnot). split; reflexivity.
Qed.

Lemma deleteToken_range_run id ts (s : S) :
  (run app.store_handler (app.deleteToken_range id ts) s).1.1 = app.Respond_NoBody
  /\ (run app.store_handler (app.deleteToken_range id ts) s).2
     = List.map (fun t => Called (app.DeleteToken (app.renamed "" t)))
                (List.filter (fun t => tk_ID t =? id) ts).
Proof.
  revert s. induction ts as [| t ts IH]; intros s; simpl; [split; reflexivity |].
  destruct (tk_ID t =? id); simpl.
  - destruct (app.Store_DeleteToken (mkToken (tk_ID t) "" 0 0 0 false "") s)
      as [err s1].
    destruct (IH s1) as [Hr Ht].
    destruct (run app.store_handler (app.deleteToken_range id ts) s1) as [[r s2] tr].
    simpl in *. subst. split; reflexivity.
  - apply IH.
Qed.

(** C10: for a parseable token id owned by the caller, [deleteToken]
    answers with success and no body after calling [DeleteToken] once for
    each owned token of that id, whatever the store answers to these
    calls, a failure included. *)
Theorem deleteToken_discards_store_error (acc : Account) (tokenID : string)
    (id : Z) (s : S) :
  Atoi tokenID = Some id ->
  In id (List.map tk_ID (acc_Token acc)) ->
  (run app.store_handler (app.deleteToken acc tokenID) s).1.1 = app.Respond_NoBody
  /\ (run app.store_handler (app.deleteToken acc tokenID) s).2
     = List.map (fun t => Called (app.DeleteToken (app.renamed "" t)))
                (app.owned id acc)
  /\ app.owned id acc <> [].
Proof.
  intros Hid Hin. unfold app.deleteToken. rewrite Hid.
  destruct (deleteToken_range_run id (acc_Token acc) s) as [Hr Ht].
  split; [exact Hr |]. split; [exact Ht |].
  unfold app.owned. apply in_map_iff in Hin as (t & Ht_id & Ht_in).
  intros Hnil.
  assert (Hf : In t (List.filter (fun t => tk_ID t =? id) (acc_Token acc))).
  { apply List.filter_In. split; [exact Ht_in |]. apply Z.eqb_eq. exact Ht_id. }
  rewrite Hnil in Hf. destruct Hf.
Qed.

End AccountHandlerClaims.

(** ** The session lifecycle handler *)

Section SessionClaims.
Context `{auth.AuthConfig} `{GoLib}.
Context {S L : Type} `{auth.Storer S} `{auth.LoginTokenAuth L}.
Variable amb : auth.Ambient.

Local Abbreviation World := (auth.World S L).
Local Abbreviation exec p w := (run (auth.handler amb) p w).

(** An unresolvable refresh token is answered with token-expired by both
    [refresh] and [logout], after the look-up alone. *)
Lemma unresolvable_refresh_token (w : World) rt e :
  auth.store_GetByRefreshToken rt (auth.w_store w) = Err e ->
  exec (auth.refresh rt) w
  = (auth.ErrUnauthorized auth.errTokenExpired, w, [Called (auth.GetByRefreshToken rt)])
  /\ exec (auth.logout rt) w
     = (auth.ErrUnauthorized auth.errTokenExpired, w, [Called (auth.GetByRefreshToken rt)]).
Proof.
  intros Hget. unfold auth.refresh, auth.logout. simpl. rewrite Hget.
  split; reflexivity.
Qed.

(** C5: when the store resolves the refresh token to a record whose
    expiry lies before the reading of the clock, [refresh] issues the
    deletion of that record and answers token-expired; it issues no other
    call after the look-up and the clock reading, so no record is
    rotated and no pair is minted. *)
Theorem refresh_expired_record (w : World) rt acc tok :
  auth.store_GetByRefreshToken rt (auth.w_store w) = Ok (acc, tok) ->
  tk_Expiry tok < auth.clock amb (auth.w_ticks w) ->
  exec (auth.refresh rt) w
  = (auth.ErrUnauthorized auth.errTokenExpired,
     (auth.on_store (auth.store_DeleteRefreshToken tok) (auth.tick w)).2,
     [Called (auth.GetByRefreshToken rt); Called auth.time_Now;
      Called (auth.DeleteRefreshToken tok)]).
Proof.
  intros Hget Hexp. unfold auth.refresh. simpl. rewrite Hget. simpl.
  unfold After. apply Z.ltb_lt in Hexp. rewrite Hexp. simpl.
  unfold auth.on_store. simpl.
  destruct (auth.store_DeleteRefreshToken tok (auth.w_store w)) as [err s1].
  reflexivity.
Qed.

(** [logout] with a resolvable token whose deletion the store carries
    out: the deletion of the resolved record is issued without looking at
    the record or at the account and the answer is success; afterwards the
    token string is unresolvable, and in every world in which it is,
    [refresh] and [logout] with that string answer token-expired. *)
Theorem logout_deletes_record `{!auth.StorerLaws S} (w : World) rt acc tok s1 :
  auth.store_GetByRefreshToken rt (auth.w_store w) = Ok (acc, tok) ->
  auth.store_DeleteRefreshToken tok (auth.w_store w) = (None, s1) ->
  exec (auth.logout rt) w
  = (auth.Respond_NoBody,
     auth.mkWorld s1 (auth.w_login w) (auth.w_ticks w) (auth.w_draws w)
                  (auth.w_outbox w),
     [Called (auth.GetByRefreshToken rt); Called (auth.DeleteRefreshToken tok)])
  /\ (exists e, auth.store_GetByRefreshToken rt s1 = Err e)
  /\ forall w2 : World,
       (exists e, auth.store_GetByRefreshToken rt (auth.w_store w2) = Err e) ->
       exec (auth.refresh rt) w2
       = (auth.ErrUnauthorized auth.errTokenExpired, w2,
          [Called (auth.GetByRefreshToken rt)])
       /\ exec (auth.logout rt) w2
          = (auth.ErrUnauthorized auth.errTokenExpired, w2,
             [Called (auth.GetByRefreshToken rt)]).
Proof.
  intros Hget Hdel. split; [| split].
  - unfold auth.logout. simpl. rewrite Hget. simpl.
    unfold auth.on_store. rewrite Hdel. reflexivity.
  - eapply auth.delete_removes; eassumption.
  - intros w2 [e He]. eapply unresolvable_refresh_token. exact He.
Qed.

(** [logout] does not look at the answer of the deletion: it answers
    with success also when the store reports a failure. *)
Lemma logout_ignores_delete_error (w : World) rt acc tok :
  auth.store_GetByRefreshToken rt (auth.w_store w) = Ok (acc, tok) ->
  (exec (auth.logout rt) w).1.1 = auth.Respond_NoBody
  /\ (exec (auth.logout rt) w).2
     = [Called (auth.GetByRefreshToken rt); Called (auth.DeleteRefreshToken tok)].
Proof.
  intros Hget. unfold auth.logout. simpl. rewrite Hget. simpl.
  unfold auth.on_store.
  destruct (auth.store_DeleteRefreshToken tok (auth.w_store w)) as [err s1].
  split; reflexivity.
Qed.

(** C2: when the body of a redemption request cannot be decoded, or its
    token, as [Bind] leaves it (surrounding white space trimmed), is empty
    or not alphanumeric, or the issuer does not resolve it, [token]
    answers with the login-token error; the world is left as it was and
    the only call that may have been issued is the look-up at the issuer,
    so no refresh-token record is created or saved. *)
Theorem token_rejects_bad_login_token (w : World) (body : option json)
    (UserAgent : string) (b : auth.tokenRequest) (err : option error) :
  Decode auth.tokenRequest_fields body (auth.mkTokenRequest "") = (b, err) ->
  (err <> None
   \/ TrimSpace (auth.tr_Token b) = ""
   \/ auth.IsAlphanumeric (TrimSpace (auth.tr_Token b)) = false
   \/ exists e, auth.Login_GetAccountID (TrimSpace (auth.tr_Token b)) (auth.w_login w)
                = Err e) ->
  (exec (auth.token body UserAgent) w).1
  = (auth.ErrUnauthorized auth.ErrLoginToken, w)
  /\ ((exec (auth.token body UserAgent) w).2 = []
      \/ (exec (auth.token body UserAgent) w).2
         = [Called (auth.GetAccountID (TrimSpace (auth.tr_Token b)))])
  /\ Forall (fun c => auth.changes_state c = false /\ auth.grants c = false)
            (exec (auth.token body UserAgent) w).2.
Proof.
  intros Hdec Hbad.
  assert (Hcases :
    exec (auth.token body UserAgent) w
    = (auth.ErrUnauthorized auth.ErrLoginToken, w, [])
    \/ exec (auth.token body UserAgent) w
       = (auth.ErrUnauthorized auth.ErrLoginToken, w,
          [Called (auth.GetAccountID (TrimSpace (auth.tr_Token b)))])).
  { unfold auth.token, auth.Bind_tokenRequest. rewrite Hdec.
    destruct err as [e|]; [left; reflexivity |].
    unfold auth.tokenRequest_Bind.
    destruct (String.eqb_spec (TrimSpace (auth.tr_Token b)) "") as [Hempty | Hne];
      [left; reflexivity |].
    destruct (auth.IsAlphanumeric (TrimSpace (auth.tr_Token b))) eqn:Halnum;
      [| left; reflexivity].
    destruct Hbad as [Hbad | [Hbad | [Hbad | [e He]]]];
      [congruence | congruence | congruence |].
    right. simpl. rewrite He. reflexivity. }
  destruct Hcases as [-> | ->]; simpl.
  - split; [reflexivity |]. split; [left; reflexivity | constructor].
  - split; [reflexivity |]. split; [right; reflexivity |].
    repeat constructor.
Qed.

(** C3 (as amended): for an account that may not log in, [login] answers
    login-disabled after the look-up of the account alone, [token] answers
    login-disabled after the look-ups at the issuer and the store alone,
    and [refresh] issues, after the look-up and one clock reading, either
    nothing and answers login-disabled (record not expired) or the
    deletion of the record and answers token-expired (record expired); no
    login token is issued, no record is saved and no pair is minted. *)
Theorem disabled_account_gets_no_session (w : World) (acc : Account) :
  auth.CanLogin acc = false ->
  (forall body b,
      auth.Bind_loginRequest body (auth.mkLoginRequest "") = (b, None) ->
      auth.store_GetByEmail (auth.Email b) (auth.w_store w) = Ok acc ->
      exec (auth.login body) w
      = (auth.ErrUnauthorized auth.ErrLoginDisabled, w,
         [Called (auth.GetByEmail (auth.Email b))]))
  /\ (forall body UserAgent b id,
      auth.Bind_tokenRequest body (auth.mkTokenRequest "") = (b, None) ->
      auth.Login_GetAccountID (auth.tr_Token b) (auth.w_login w) = Ok id ->
      auth.store_GetByID id (auth.w_store w) = Ok acc ->
      exec (auth.token body UserAgent) w
      = (auth.ErrUnauthorized auth.ErrLoginDisabled, w,
         [Called (auth.GetAccountID (auth.tr_Token b)); Called (auth.GetByID id)]))
  /\ (forall rt tok,
      auth.store_GetByRefreshToken rt (auth.w_store w) = Ok (acc, tok) ->
      exec (auth.refresh rt) w
      = if After (auth.clock amb (auth.w_ticks w)) (tk_Expiry tok)
        then (auth.ErrUnauthorized auth.errTokenExpired,
              (auth.on_store (auth.store_DeleteRefreshToken tok) (auth.tick w)).2,
              [Called (auth.GetByRefreshToken rt); Called auth.time_Now;
               Called (auth.DeleteRefreshToken tok)])
        else (auth.ErrUnauthorized auth.ErrLoginDisabled, auth.tick w,
              [Called (auth.GetByRefreshToken rt); Called auth.time_Now])).
Proof.
  intros Hno. split; [| split].
  - intros body b Hbind Hget. unfold auth.login. rewrite Hbind. simpl.
    rewrite Hget. simpl. rewrite Hno. reflexivity.
  - intros body UserAgent b id Hbind Hid Hget. unfold auth.token.
    rewrite Hbind. simpl. rewrite Hid. simpl. rewrite Hget. simpl.
    rewrite Hno. reflexivity.
  - intros rt tok Hget. unfold auth.refresh. simpl. rewrite Hget. simpl.
    destruct (After (auth.clock amb (auth.w_ticks w)) (tk_Expiry tok)); simpl.
    + unfold auth.on_store. simpl.
      destruct (auth.store_DeleteRefreshToken tok (auth.w_store w)) as [err s1].
      reflexivity.
    + rewrite Hno. reflexivity.
Qed.

(** C9: [token] saves the new record before it asks for the pair.  When
    the save has succeeded and signing then fails, or signing succeeds and
    the account update then fails, the answer is an internal server error,
    no deletion is issued after the save, and the saved record is still
    what its token string resolves to in the database the request leaves
    behind. *)
Theorem token_error_leaves_record `{!auth.StorerLaws S} (w : World) body UserAgent
    b id acc saved s1 :
  auth.Bind_tokenRequest body (auth.mkTokenRequest "") = (b, None) ->
  auth.Login_GetAccountID (auth.tr_Token b) (auth.w_login w) = Ok id ->
  auth.store_GetByID id (auth.w_store w) = Ok acc ->
  auth.CanLogin acc = true ->
  auth.store_SaveRefreshToken (auth.new_Token amb w acc UserAgent) (auth.w_store w)
  = ((saved, None), s1) ->
  let new := auth.new_Token amb w acc UserAgent in
  let until_save :=
    [Called (auth.GetAccountID (auth.tr_Token b)); Called (auth.GetByID id);
     Called auth.uuid_NewV4; Called auth.time_Now; Called auth.time_Now;
     Called (auth.SaveRefreshToken new);
     Called (auth.GenTokenPair (auth.Account_Claims acc) (auth.Token_Claims saved))] in
  (forall e,
      auth.Token_GenTokenPair amb (auth.Account_Claims acc) (auth.Token_Claims saved)
      = Err e ->
      exec (auth.token body UserAgent) w
      = (auth.ErrInternalServerError,
         auth.mkWorld s1 (auth.w_login w) (2 + auth.w_ticks w)
                      (1 + auth.w_draws w) (auth.w_outbox w),
         until_save)
      /\ auth.store_GetByRefreshToken (tk_Token new) s1 = Ok (acc, saved))
  /\ (forall access refresh e s2,
      auth.Token_GenTokenPair amb (auth.Account_Claims acc) (auth.Token_Claims saved)
      = Ok (access, refresh) ->
      auth.store_UpdateAccount
        (auth.set_LastLogin (auth.clock amb (2 + auth.w_ticks w)) acc) s1
      = (Some e, s2) ->
      exec (auth.token body UserAgent) w
      = (auth.ErrInternalServerError,
         auth.mkWorld s2 (auth.w_login w) (3 + auth.w_ticks w)
                      (1 + auth.w_draws w) (auth.w_outbox w),
         (until_save ++
          [Called auth.time_Now;
           Called (auth.UpdateAccount
                     (auth.set_LastLogin (auth.clock amb (2 + auth.w_ticks w)) acc))])%list)
      /\ exists a1, auth.store_GetByRefreshToken (tk_Token new) s2 = Ok (a1, saved)).
Proof.
  intros Hbind Hid Hget Hcan Hsave new until_save.
  assert (Hres : auth.store_GetByRefreshToken (tk_Token new) s1 = Ok (acc, saved)).
  { pose proof (auth.resolved_id _ _ _ Hget) as Hacc.
    eapply auth.save_stores; [| exact Hsave].
    simpl. rewrite Hacc. exact Hget. }
  split.
  - intros e Hsign. split; [| exact Hres].
    unfold auth.token. rewrite Hbind. simpl. rewrite Hid. simpl.
    rewrite Hget. simpl. rewrite Hcan. simpl.
    unfold auth.on_store. simpl. fold new. unfold auth.new_Token in Hsave.
    simpl in Hsave. rewrite Hsave. simpl. rewrite Hsign. reflexivity.
  - intros access refresh e s2 Hsign Hupd. split.
    + unfold auth.token. rewrite Hbind. simpl. rewrite Hid. simpl.
      rewrite Hget. simpl. rewrite Hcan. simpl.
      unfold auth.on_store. simpl. unfold auth.new_Token in Hsave.
      simpl in Hsave. rewrite Hsave. simpl. rewrite Hsign. simpl.
      unfold auth.on_store. simpl. simpl in Hupd. rewrite Hupd. reflexivity.
    + pose proof (auth.update_account_keeps _ _ _ _ (tk_Token new) Hupd) as Hk.
      rewrite Hres in Hk. exact Hk.
Qed.


End SessionClaims.

(** ** The in-memory database keeps the store's contract *)

Section MemoryStore.

Lemma without_id_lookup (p : positive) (m : gmap string mem.Row) x r :
  m !! x = Some r -> mem.r_ID r = p -> mem.without_id p m !! x = None.
Proof.
  intros Hx Hp. unfold mem.without_id.
  destruct (filter _ m !! x) as [r'|] eqn:Hf; [| reflexivity].
  apply map_lookup_filter_Some in Hf as [Hr' Hne]. simpl in Hne.
  rewrite Hx in Hr'. injection Hr' as <-. contradiction.
Qed.

Lemma mem_GetByID_inv id db a :
  mem.GetByID id db = Ok a ->
  mem.down db = false /\ mem.account_at id db = Some a.
Proof.
  unfold mem.GetByID. destruct (mem.down db); [discriminate |].
  destruct (mem.account_at id db); [| discriminate].
  intros [= ->]. split; reflexivity.
Qed.

Lemma mem_GetByRefreshToken_inv x db a row :
  mem.GetByRefreshToken x db = Ok (a, row) ->
  exists r, mem.down db = false /\ mem.tokens db !! x = Some r
            /\ mem.account_at (mem.r_AccountID r) db = Some a
            /\ row = mem.Token_of x r.
Proof.
  unfold mem.GetByRefreshToken. destruct (mem.down db); [discriminate |].
  destruct (mem.tokens db !! x) as [r|]; [| discriminate].
  destruct (mem.account_at (mem.r_AccountID r) db) as [a'|] eqn:Ha; [| discriminate].
  intros [= <- <-]. exists r. repeat split; assumption || reflexivity.
Qed.

Lemma mem_GetByRefreshToken_at x db r a :
  mem.down db = false ->
  mem.tokens db !! x = Some r ->
  mem.account_at (mem.r_AccountID r) db = Some a ->
  mem.GetByRefreshToken x db = Ok (a, mem.Token_of x r).
Proof.
  intros Hd Hx Ha. unfold mem.GetByRefreshToken. rewrite Hd, Hx, Ha. reflexivity.
Qed.

Lemma mem_GetByRefreshToken_none x db :
  mem.tokens db !! x = None -> exists e, mem.GetByRefreshToken x db = Err e.
Proof.
  intros Hx. unfold mem.GetByRefreshToken. destruct (mem.down db); [eexists; reflexivity |].
  rewrite Hx. eexists; reflexivity.
Qed.

Lemma mem_account_at_Some id db a :
  mem.account_at id db = Some a -> exists a0, mem.accounts db !! id = Some a0.
Proof.
  unfold mem.account_at. destruct (mem.accounts db !! id) as [a0|]; [| discriminate].
  intros _. exists a0. reflexivity.
Qed.

Lemma mem_save_stores (s s' : mem.DB) t t' a :
  mem.GetByID (tk_AccountID t) s = Ok a ->
  mem.SaveRefreshToken t s = ((t', None), s') ->
  mem.GetByRefreshToken (tk_Token t) s' = Ok (a, t')
  /\ t' = mkToken (tk_ID t') (tk_Token t) (tk_Expiry t) (tk_UpdatedAt t)
                  (tk_AccountID t) (tk_Mobile t) (tk_Identifier t)
  /\ (tk_ID t <> 0 -> tk_ID t' = tk_ID t).
Proof.
  intros Hacc Hsave. apply mem_GetByID_inv in Hacc as [Hd Ha].
  destruct (mem_account_at_Some _ _ _ Ha) as [a0 Ha0].
  unfold mem.SaveRefreshToken in Hsave. rewrite Hd, Ha0 in Hsave.
  destruct t as [tid tstr texp tupd tacc tmob tident]; simpl in *.
  destruct tid as [| p | p]; simpl in Hsave.
  - destruct (mem.tokens s !! tstr) eqn:Hfree; [discriminate |].
    injection Hsave as <- <-. split; [| split; [reflexivity | congruence]].
    apply mem_GetByRefreshToken_at; simpl;
      [reflexivity || exact Hd | apply lookup_insert_eq | exact Ha].
  - destruct (decide (mem.with_id p (mem.tokens s) = ∅)); [discriminate |].
    destruct (mem.without_id p (mem.tokens s) !! tstr) eqn:Hfree; [discriminate |].
    injection Hsave as <- <-. split; [| split; reflexivity].
    change (mkToken (Z.pos p) tstr texp tupd tacc tmob tident)
      with (mem.Token_of tstr (mem.Row_of p (mkToken (Z.pos p) tstr texp tupd tacc tmob tident))).
    apply mem_GetByRefreshToken_at; simpl;
      [reflexivity || exact Hd | apply lookup_insert_eq | exact Ha].
  - discriminate.
Qed.

Lemma mem_save_replaces (s s' : mem.DB) old a row t t' :
  mem.GetByRefreshToken old s = Ok (a, row) ->
  tk_ID t = tk_ID row ->
  tk_Token t <> old ->
  mem.SaveRefreshToken t s = ((t', None), s') ->
  exists e, mem.GetByRefreshToken old s' = Err e.
Proof.
  intros Hget Hid Hne Hsave.
  apply mem_GetByRefreshToken_inv in Hget as (r & Hd & Hold & Ha & ->).
  simpl in Hid. unfold mem.SaveRefreshToken in Hsave. rewrite Hd, Hid in Hsave.
  destruct (mem.accounts s !! tk_AccountID t); [| discriminate].
  destruct (decide (mem.with_id (mem.r_ID r) (mem.tokens s) = ∅)); [discriminate |].
  destruct (mem.without_id (mem.r_ID r) (mem.tokens s) !! tk_Token t); [discriminate |].
  injection Hsave as <- <-.
  apply mem_GetByRefreshToken_none. simpl.
  rewrite lookup_insert_ne by exact Hne.
  eapply without_id_lookup; [exact Hold | reflexivity].
Qed.

Lemma mem_delete_removes (s s' : mem.DB) x a row :
  mem.GetByRefreshToken x s = Ok (a, row) ->
  mem.DeleteRefreshToken row s = (None, s') ->
  exists e, mem.GetByRefreshToken x s' = Err e.
Proof.
  intros Hget Hdel.
  apply mem_GetByRefreshToken_inv in Hget as (r & Hd & Hx & Ha & ->).
  unfold mem.DeleteRefreshToken in Hdel. rewrite Hd in Hdel.
  injection Hdel as <-. apply mem_GetByRefreshToken_none. simpl.
  eapply without_id_lookup; [exact Hx | reflexivity].
Qed.

Lemma mem_update_account_keeps (s s' : mem.DB) acc r x :
  mem.UpdateAccount acc s = (r, s') ->
  match mem.GetByRefreshToken x s with
  | Ok (_, row) => exists a1, mem.GetByRefreshToken x s' = Ok (a1, row)
  | Err _ => exists e, mem.GetByRefreshToken x s' = Err e
  end.
Proof.
  intros Hupd.
  assert (Hsame : s' = s -> match mem.GetByRefreshToken x s with
    | Ok (_, row) => exists a1, mem.GetByRefreshToken x s' = Ok (a1, row)
    | Err _ => exists e, mem.GetByRefreshToken x s' = Err e end).
  { intros ->. destruct (mem.GetByRefreshToken x s) as [[a row] | e]; eauto. }
  unfold mem.UpdateAccount in Hupd.
  destruct (mem.down s) eqn:Hd.
  { apply Hsame. congruence. }
  destruct (mem.accounts s !! acc_ID acc) as [old|] eqn:Hold.
  2: { apply Hsame. congruence. }
  clear Hsame. injection Hupd as <- <-.
  unfold mem.GetByRefreshToken, mem.account_at. simpl. rewrite Hd.
  destruct (mem.tokens s !! x) as [r0|]; [| eauto].
  destruct (decide (acc_ID acc = mem.r_AccountID r0)) as [Heq | Hne].
  - rewrite <- Heq, lookup_insert_eq, Hold. simpl. eauto.
  - rewrite lookup_insert_ne by exact Hne.
    destruct (mem.accounts s !! mem.r_AccountID r0); simpl; eauto.
Qed.

#[global] Instance mem_StorerLaws : auth.StorerLaws mem.DB.
Proof.
  split.
  - intros s id a Hget. apply mem_GetByID_inv in Hget as [_ Ha].
    unfold mem.account_at in Ha. destruct (mem.accounts s !! id); [| discriminate].
    injection Ha as <-. reflexivity.
  - intros s x a row Hget.
    apply mem_GetByRefreshToken_inv in Hget as (r & _ & _ & _ & ->). discriminate.
  - intros s x a row Hget.
    apply mem_GetByRefreshToken_inv in Hget as (r & Hd & _ & Ha & ->).
    simpl. unfold mem.GetByID. rewrite Hd, Ha. reflexivity.
  - exact mem_save_stores.
  - exact mem_save_replaces.
  - exact mem_delete_removes.
  - exact mem_update_account_keeps.
Qed.

End MemoryStore.

(** ** The statements at work in the small world *)

Section SmallWorld.

Local Abbreviation exec p w := (run (auth.handler mem.ambient) p w).
Local Abbreviation serve r s := (run app.store_handler (app.router r) (s : mem.DB)).


(** A token that is not alphanumeric once trimmed is turned away with
    the login-token error and the world is left as it was. *)
Lemma token_rejects_bad_login_token_witness :
  (exec (auth.token (sample.token_body " ab c1 ") "Firefox") sample.w0).1
  = (auth.ErrUnauthorized auth.ErrLoginToken, sample.w0).
Proof.
  refine (proj1 (token_rejects_bad_login_token mem.ambient sample.w0
                   (sample.token_body " ab c1 ") "Firefox"
                   (auth.mkTokenRequest " ab c1 ") None _ _)).
  - reflexivity.
  - right. right. left. vm_compute. reflexivity.
Defined.

(** [Bind] trims the token before it is validated and resolved: a
    token with surrounding blanks is redeemed like the token itself. *)
Lemma token_accepts_padded_login_token :
  (exec (auth.token (sample.token_body " abc1 ") "Firefox") sample.w0).1.1
  = auth.Respond_tokenResponse "access:alice@example.com" "refresh:uuid0".
Proof. vm_compute. reflexivity. Qed.

(** Bob may not log in: his login request and his refresh with a live
    token are answered with login-disabled, his refresh with an expired
    token with token-expired. *)
Lemma disabled_account_gets_no_session_witness :
  exec (auth.login (sample.login_body " Bob@Example.com ")) sample.w0
  = (auth.ErrUnauthorized auth.ErrLoginDisabled, sample.w0,
     [Called (auth.GetByEmail "bob@example.com")])
  /\ (exec (auth.refresh "rb") sample.w0).1.1
     = auth.ErrUnauthorized auth.ErrLoginDisabled
  /\ (exec (auth.refresh "ob") sample.w0).1.1
     = auth.ErrUnauthorized auth.errTokenExpired.
Proof.
  assert (Hno : auth.CanLogin sample.bob = false) by reflexivity.
  destruct (disabled_account_gets_no_session mem.ambient sample.w0 sample.bob Hno)
    as (Hlogin & _ & Hrefresh).
  split; [| split].
  - apply (Hlogin (sample.login_body " Bob@Example.com ")
                  (auth.mkLoginRequest "bob@example.com")); vm_compute; reflexivity.
  - rewrite (Hrefresh "rb" (mkToken 3 "rb" 5000 10 2 false "Firefox on Linux"))
      by (vm_compute; reflexivity).
    vm_compute. reflexivity.
  - rewrite (Hrefresh "ob" sample.ob) by (vm_compute; reflexivity).
    vm_compute. reflexivity.
Defined.

(** Alice asks to rename and to delete Bob's token 3: both requests
    succeed without a body and the database is untouched. *)
Lemma foreign_token_is_noop_witness :
  serve (app.mkRequest 1 (app.PUT_token "3") (sample.rename_body "mine")) sample.db0
  = (app.Respond_NoBody, sample.db0, [Called (app.Get 1)])
  /\ serve (app.mkRequest 1 (app.DELETE_token "3") None) sample.db0
     = (app.Respond_NoBody, sample.db0, [Called (app.Get 1)]).
Proof.
  assert (Hget : app.Store_Get 1 sample.db0 = Ok sample.alice_loaded)
    by (vm_compute; reflexivity).
  assert (Hid : Atoi "3" = Some 3) by reflexivity.
  assert (Hnot : ~ In 3 (List.map tk_ID (acc_Token sample.alice_loaded))).
  { simpl. intros [Heq | [Heq | []]]; discriminate. }
  destruct (foreign_token_is_noop 1 "3" 3 sample.alice_loaded sample.db0 Hget Hid Hnot)
    as (Hput & Hdelete & _).
  split.
  - apply Hput. vm_compute. reflexivity.
  - apply Hdelete.
Defined.

(** Alice's expired token [old]: the record is deleted and the answer is
    token-expired. *)
Lemma refresh_expired_record_witness :
  (exec (auth.refresh "old") sample.w0).1.1 = auth.ErrUnauthorized auth.errTokenExpired
  /\ (exec (auth.refresh "old") sample.w0).2
     = [Called (auth.GetByRefreshToken "old"); Called auth.time_Now;
        Called (auth.DeleteRefreshToken
                  (mkToken 2 "old" 50 10 1 false "Safari on iOS"))].
Proof.
  assert (Hget : auth.store_GetByRefreshToken "old" (auth.w_store sample.w0)
                 = Ok (sample.alice, mkToken 2 "old" 50 10 1 false "Safari on iOS"))
    by (vm_compute; reflexivity).
  assert (Hexp : tk_Expiry (mkToken 2 "old" 50 10 1 false "Safari on iOS")
                 < auth.clock mem.ambient (auth.w_ticks sample.w0))
    by (vm_compute; reflexivity).
  rewrite (refresh_expired_record mem.ambient sample.w0 "old" _ _ Hget Hexp).
  split; reflexivity.
Defined.

(** Alice logs out with [r1]; a second logout and a refresh with [r1]
    are answered with token-expired. *)
Lemma logout_deletes_record_witness :
  (exec (auth.logout "r1") sample.w0).1.1 = auth.Respond_NoBody
  /\ (exec (auth.logout "r1") (exec (auth.logout "r1") sample.w0).1.2).1.1
     = auth.ErrUnauthorized auth.errTokenExpired
  /\ (exec (auth.refresh "r1") (exec (auth.logout "r1") sample.w0).1.2).1.1
     = auth.ErrUnauthorized auth.errTokenExpired.
Proof.
  assert (Hget : auth.store_GetByRefreshToken "r1" (auth.w_store sample.w0)
                 = Ok (sample.alice, sample.r1))
    by (vm_compute; reflexivity).
  assert (Hdel : auth.store_DeleteRefreshToken sample.r1 (auth.w_store sample.w0)
                 = (None, (mem.DeleteRefreshToken sample.r1 sample.db0).2))
    by (vm_compute; reflexivity).
  destruct (logout_deletes_record mem.ambient sample.w0 "r1" _ _ _ Hget Hdel)
    as (Hout & Hgone & Hnext).
  rewrite Hout. simpl.
  destruct (Hnext (auth.mkWorld (mem.DeleteRefreshToken sample.r1 sample.db0).2
                     (auth.w_login sample.w0) (auth.w_ticks sample.w0)
                     (auth.w_draws sample.w0) (auth.w_outbox sample.w0)) Hgone)
    as [Hrefresh Hlogout].
  simpl in Hrefresh, Hlogout. rewrite Hrefresh, Hlogout.
  repeat split.
Defined.

(** Claims that name account 7, which the database does not hold. *)
Lemma accountCtx_rejects_unknown_account_witness :
  serve (app.mkRequest 7 app.DELETE_root None) sample.db0
  = (app.ErrUnauthorized, sample.db0, [Called (app.Get 7)]).
Proof.
  refine (proj1 (accountCtx_rejects_unknown_account
                   (app.mkRequest 7 app.DELETE_root None) sample.db0 mem.no_rows _)).
  vm_compute. reflexivity.
Defined.

(** Alice redeems her login token while the signer fails: the answer is
    an internal server error and the new record stays in the database. *)
Lemma token_error_leaves_record_witness :
  (run (auth.handler mem.ambient_unsigned)
       (auth.token (sample.token_body "abc1") "Firefox") sample.w0).1.1
  = auth.ErrInternalServerError
  /\ mem.GetByRefreshToken "uuid0"
       (auth.w_store
          (run (auth.handler mem.ambient_unsigned)
               (auth.token (sample.token_body "abc1") "Firefox") sample.w0).1.2)
     = Ok (sample.alice, mkToken 5 "uuid0" 3700 101 1 false "Firefox on Linux").
Proof.
  pose (saved := mkToken 5 "uuid0" 3700 101 1 false "Firefox on Linux").
  pose (s1 := (mem.SaveRefreshToken
                 (auth.new_Token mem.ambient_unsigned sample.w0 sample.alice "Firefox")
                 sample.db0).2).
  assert (Hbind : auth.Bind_tokenRequest (sample.token_body "abc1") (auth.mkTokenRequest "")
                  = (auth.mkTokenRequest "abc1", None))
    by (vm_compute; reflexivity).
  assert (Hid : auth.Login_GetAccountID (auth.tr_Token (auth.mkTokenRequest "abc1"))
                  (auth.w_login sample.w0) = Ok 1)
    by (vm_compute; reflexivity).
  assert (Hget : auth.store_GetByID 1 (auth.w_store sample.w0) = Ok sample.alice)
    by (vm_compute; reflexivity).
  assert (Hcan : auth.CanLogin sample.alice = true) by reflexivity.
  assert (Hsave : auth.store_SaveRefreshToken
                    (auth.new_Token mem.ambient_unsigned sample.w0 sample.alice "Firefox")
                    (auth.w_store sample.w0)
                  = ((saved, None), s1))
    by (vm_compute; reflexivity).
  destruct (token_error_leaves_record mem.ambient_unsigned sample.w0
              (sample.token_body "abc1") "Firefox" _ 1 sample.alice saved s1
              Hbind Hid Hget Hcan Hsave) as [Hsign _].
  destruct (Hsign (PlainError "signing failed") eq_refl) as [Hrun Hres].
  rewrite Hrun. simpl. split; [reflexivity | exact Hres].
Defined.

(** The database is down, so [DeleteToken] fails; Alice's request to
    delete her token 1 is answered with success all the same. *)
Lemma deleteToken_discards_store_error_witness :
  (app.Store_DeleteToken (app.renamed "" sample.r1) sample.db_down).1
  = Some (PlainError "database is down")
  /\ (run app.store_handler (app.deleteToken sample.alice_loaded "1") sample.db_down).1.1
     = app.Respond_NoBody.
Proof.
  split; [reflexivity |].
  refine (proj1 (deleteToken_discards_store_error sample.alice_loaded "1" 1
                   sample.db_down _ _)).
  - reflexivity.
  - simpl. right. left. reflexivity.
Defined.

(** The claim C3 as written fails for [refresh]: Bob may not log in, the
    store resolves his token [ob], whose expiry lies before the clock
    reading, and the answer is token-expired, not login-disabled. *)
Lemma refresh_disabled_expired_answers_token_expired :
  auth.store_GetByRefreshToken "ob" (auth.w_store sample.w0) = Ok (sample.bob, sample.ob)
  /\ auth.CanLogin sample.bob = false
  /\ (exec (auth.refresh "ob") sample.w0).1.1 = auth.ErrUnauthorized auth.errTokenExpired
  /\ (exec (auth.refresh "ob") sample.w0).1.1 <> auth.ErrUnauthorized auth.ErrLoginDisabled.
Proof.
  split; [vm_compute; reflexivity |].
  split; [reflexivity |].
  split; [vm_compute; reflexivity |].
  vm_compute. discriminate.
Qed.

End SmallWorld.

(** ** Further properties of the account handler *)

Section AccountHandlerMore.
Context `{GoLib}.
Context {S : Type} `{app.AccountStore S}.

(** When the store resolves the account of the claims, a request is
    served by its route's handler on that account, after the look-up;
    [GET /] answers with that very account and touches nothing. *)
Theorem router_resolved_runs_route (r : app.Request) (s : S) (acc : Account) :
  app.Store_Get (app.claims_ID r) s = Ok acc ->
  run app.store_handler (app.router r) s
  = (let '(x, s', tr) := run app.store_handler (app.route_handler r acc) s in
     (x, s', Called (app.Get (app.claims_ID r)) :: tr))
  /\ (app.route r = app.GET_root ->
      run app.store_handler (app.router r) s
      = (app.Respond_account acc, s, [Called (app.Get (app.claims_ID r))])).
Proof.
  intros Hget.
  assert (Hrun : run app.store_handler (app.router r) s
     = (let '(x, s', tr) := run app.store_handler (app.route_handler r acc) s in
        (x, s', Called (app.Get (app.claims_ID r)) :: tr))).
  { unfold app.router, app.accountCtx. simpl. rewrite Hget. reflexivity. }
  split; [exact Hrun |].
  intros Hroute. rewrite Hrun. unfold app.route_handler. rewrite Hroute.
  reflexivity.
Qed.

(** An account update whose body does not bind is answered with the
    invalid-request error of the binding and never reaches the store. *)
Theorem update_unbound_body_writes_nothing (acc : Account) (body : option json)
    (s : S) (e : error) :
  (app.Bind_accountRequest body (app.mkAccountRequest acc 0 false [])).2 = Some e ->
  run app.store_handler (app.update acc body) s = (app.ErrInvalidRequest e, s, []).
Proof.
  intros Hbind. unfold app.update.
  destruct (app.Bind_accountRequest body (app.mkAccountRequest acc 0 false []))
    as [data err].
  simpl in Hbind. subst err. reflexivity.
Qed.

(** An account update whose body binds calls [Store.Update] once, on the
    bound account, and nothing else; a validation error of the store is
    rendered as a validation error, any other error as a render error, and
    on success the answer is the account as the store left it. *)
Theorem update_store_outcomes (acc : Account) (body : option json) (s : S)
    (data : app.accountRequest) :
  app.Bind_accountRequest body (app.mkAccountRequest acc 0 false []) = (data, None) ->
  run app.store_handler (app.update acc body) s
  = (match (app.Store_Update (app.ar_Account data) s).1.2 with
     | Some (ValidationErrors m) => app.ErrValidation (ValidationErrors m)
     | Some (PlainError m) => app.ErrRender (PlainError m)
     | None => app.Respond_account (app.Store_Update (app.ar_Account data) s).1.1
     end,
     (app.Store_Update (app.ar_Account data) s).2,
     [Called (app.Update (app.ar_Account data))]).
Proof.
  intros Hbind. unfold app.update. rewrite Hbind. simpl.
  destruct (app.Store_Update (app.ar_Account data) s) as [[a' [[m | m] |]] s1];
    reflexivity.
Qed.

(** The fields that are not protected are written: a body with a name, an
    e-mail address and an [active] flag hands the store the caller's
    account with that name and that address, and with its own active
    flag. *)
Theorem update_writes_name_and_email (acc : Account) (name email : string)
    (active : bool) (s : S) :
  (run app.store_handler
       (app.update acc (Some (JObj [("active", JBool active); ("name", JStr name);
                                    ("email", JStr email)]))) s).2
  = [Called (app.Update (app.put_Email email (app.put_Name name acc)))].
Proof.
  unfold app.update, app.Bind_accountRequest, Decode, decodeStruct. simpl.
  destruct (app.Store_Update (app.put_Email email (app.put_Name name acc)) s)
    as [[a' [[m | m] |]] s1]; reflexivity.
Qed.

(** [DELETE /] calls [Store.Delete] once on the caller's account; the
    answer is success without a body when the store succeeds and the
    store's error rendered otherwise. *)
Theorem delete_outcomes (acc : Account) (s : S) :
  run app.store_handler (app.delete acc) s
  = (match (app.Store_Delete acc s).1 with
     | Some e => app.ErrRender e
     | None => app.Respond_NoBody
     end,
     (app.Store_Delete acc s).2,
     [Called (app.Delete acc)]).
Proof.
  unfold app.delete. simpl.
  destruct (app.Store_Delete acc s) as [[e |] s1]; reflexivity.
Qed.

Lemma updateToken_range_owned id data (acc : Account) ts (s : S) :
  (forall t, In t ts -> In t (acc_Token acc)) ->
  Forall (app.touches_owned id acc)
         (run app.store_handler (app.updateToken_range id data ts) s).2.
Proof.
  revert s. induction ts as [| t ts IH]; intros s Hsub; simpl; [constructor |].
  assert (Hrest : forall t', In t' ts -> In t' (acc_Token acc)).
  { intros t' Hin. apply Hsub. right. exact Hin. }
  destruct (Z.eqb_spec (tk_ID t) id) as [Heq | Hne]; [| apply IH, Hrest].
  simpl.
  destruct (app.Store_UpdateToken (mkToken (tk_ID t) "" 0 0 0 false (app.Identifier data)) s)
    as [[e |] s1]; simpl.
  - constructor; [| constructor].
    split; [exact Heq |]. rewrite <- Heq. apply in_map. apply Hsub. left. reflexivity.
  - specialize (IH s1 Hrest).
    destruct (run app.store_handler (app.updateToken_range id data ts) s1)
      as [[r s2] tr].
    simpl in *. constructor; [| exact IH].
    split; [exact Heq |]. rewrite <- Heq. apply in_map. apply Hsub. left. reflexivity.
Qed.

Lemma deleteToken_range_owned id (acc : Account) ts (s : S) :
  (forall t, In t ts -> In t (acc_Token acc)) ->
  Forall (app.touches_owned id acc)
         (run app.store_handler (app.deleteToken_range id ts) s).2.
Proof.
  revert s. induction ts as [| t ts IH]; intros s Hsub; simpl; [constructor |].
  assert (Hrest : forall t', In t' ts -> In t' (acc_Token acc)).
  { intros t' Hin. apply Hsub. right. exact Hin. }
  destruct (Z.eqb_spec (tk_ID t) id) as [Heq | Hne]; [| apply IH, Hrest].
  simpl.
  destruct (app.Store_DeleteToken (mkToken (tk_ID t) "" 0 0 0 false "") s)
    as [err s1].
  specialize (IH s1 Hrest).
  destruct (run app.store_handler (app.deleteToken_range id ts) s1) as [[r s2] tr].
  simpl in *. constructor; [| exact IH].
  split; [exact Heq |]. rewrite <- Heq. apply in_map. apply Hsub. left. reflexivity.
Qed.

(** Whatever the token id, the body and the answers of the store, every
    call that [updateToken] and [deleteToken] issue is a rename or a
    deletion of a token whose id is the id of the URL and belongs to one
    of the caller's own tokens; a client-supplied [id] in the body plays
    no part. *)
Theorem token_routes_touch_owned_tokens_only (acc : Account) (tokenID : string)
    (body : option json) (s : S) :
  Forall (fun c => exists id, Atoi tokenID = Some id /\ app.touches_owned id acc c)
         (run app.store_handler (app.updateToken acc tokenID body) s).2
  /\ Forall (fun c => exists id, Atoi tokenID = Some id /\ app.touches_owned id acc c)
            (run app.store_handler (app.deleteToken acc tokenID) s).2.
Proof.
  unfold app.updateToken, app.deleteToken.
  destruct (Atoi tokenID) as [id |]; [| split; constructor].
  split.
  - destruct (app.Bind_tokenRequest body (app.mkTokenRequest "" 0)) as [data [e |]];
      [constructor |].
    refine (List.Forall_impl _ _
              (updateToken_range_owned id data acc _ s (fun t Hin => Hin))).
    intros c Hc. exists id. split; [reflexivity | exact Hc].
  - refine (List.Forall_impl _ _
              (deleteToken_range_owned id acc _ s (fun t Hin => Hin))).
    intros c Hc. exists id. split; [reflexivity | exact Hc].
Qed.

Lemma updateToken_range_skip id data pre ts :
  ~ In id (List.map tk_ID pre) ->
  app.updateToken_range id data (pre ++ ts)%list = app.updateToken_range id data ts.
Proof.
  induction pre as [| t pre IH]; simpl; intros Hnot; [reflexivity |].
  destruct (Z.eqb_spec (tk_ID t) id) as [Heq | Hne].
  - exfalso. apply Hnot. left. exact Heq.
  - apply IH. intros Hin. apply Hnot. right. exact Hin.
Qed.

(** A rename of a token that the caller owns hands the store the id of
    the URL and the identifier of the body with its surrounding white
    space trimmed, and nothing else of the body: the body's own [id] is
    ignored.  When the store accepts, the answer is success without a
    body. *)
Theorem updateToken_renames_owned_token (acc : Account) (tokenID : string) (id : Z)
    (raw : string) (body_id : Z) (pre post : list Token) (t : Token) (s s1 : S) :
  Atoi tokenID = Some id ->
  acc_Token acc = (pre ++ t :: post)%list ->
  tk_ID t = id ->
  ~ In id (List.map tk_ID pre) ->
  ~ In id (List.map tk_ID post) ->
  - 2 ^ 63 <= body_id < 2 ^ 63 ->
  app.Store_UpdateToken (mkToken id "" 0 0 0 false (TrimSpace raw)) s = (None, s1) ->
  run app.store_handler
      (app.updateToken acc tokenID
         (Some (JObj [("Identifier", JStr raw); ("id", JInt body_id)]))) s
  = (app.Respond_NoBody, s1,
     [Called (app.UpdateToken (mkToken id "" 0 0 0 false (TrimSpace raw)))]).
Proof.
  intros Hid Htokens Ht Hpre Hpost Hrange Hstore.
  unfold app.updateToken. rewrite Hid.
  assert (Hbind : app.Bind_tokenRequest
                    (Some (JObj [("Identifier", JStr raw); ("id", JInt body_id)]))
                    (app.mkTokenRequest "" 0)
                  = (app.mkTokenRequest (TrimSpace raw) body_id, None)).
  { unfold app.Bind_tokenRequest, Decode, decodeStruct. simpl.
    unfold set_int.
    replace ((- 2 ^ 63 <=? body_id) && (body_id <? 2 ^ 63)) with true; [reflexivity |].
    symmetry. apply andb_true_intro. split; [apply Z.leb_le | apply Z.ltb_lt]; lia. }
  rewrite Hbind, Htokens, (updateToken_range_skip id _ pre _ Hpre). simpl.
  rewrite Ht, Z.eqb_refl. simpl. rewrite Hstore.
  rewrite (updateToken_range_foreign id _ post Hpost). reflexivity.
Qed.

(** [updateToken] gives up at the first rename that the store refuses:
    the answer is the invalid-request error of that refusal, and no
    further token is handed to the store, whatever follows in the
    caller's token list. *)
Theorem updateToken_stops_at_store_error (acc : Account) (tokenID : string) (id : Z)
    (body : option json) (data : app.tokenRequest) (pre post : list Token)
    (t : Token) (e : error) (s s1 : S) :
  Atoi tokenID = Some id ->
  app.Bind_tokenRequest body (app.mkTokenRequest "" 0) = (data, None) ->
  acc_Token acc = (pre ++ t :: post)%list ->
  tk_ID t = id ->
  ~ In id (List.map tk_ID pre) ->
  app.Store_UpdateToken (app.renamed (app.Identifier data) t) s = (Some e, s1) ->
  run app.store_handler (app.updateToken acc tokenID body) s
  = (app.ErrInvalidRequest e, s1,
     [Called (app.UpdateToken (app.renamed (app.Identifier data) t))]).
Proof.
  intros Hid Hbind Htokens <- Hpre Hstore.
  unfold app.updateToken. rewrite Hid, Hbind, Htokens.
  rewrite (updateToken_range_skip (tk_ID t) _ pre _ Hpre). simpl.
  rewrite Z.eqb_refl. simpl.
  unfold app.renamed in *. rewrite Hstore. reflexivity.
Qed.

End AccountHandlerMore.

(** ** Further properties of the session lifecycle handler *)

Section SessionMore.
Context `{auth.AuthConfig} `{GoLib}.
Context {S L : Type} `{auth.Storer S} `{auth.LoginTokenAuth L}.
Variable amb : auth.Ambient.

Local Abbreviation World := (auth.World S L).
Local Abbreviation exec p w := (run (auth.handler amb) p w).

(** Case analysis on every answer that a run consults: the innermost
    scrutinee first, never the run itself. *)
Ltac case_answer x :=
  lazymatch x with
  | run _ _ _ => fail
  | context [match _ with _ => _ end] => fail
  | context [if _ then _ else _] => fail
  | _ => destruct x eqn:?
  end.

Ltac run_cases :=
  repeat (simpl; try unfold auth.on_store; try unfold auth.on_login; simpl;
          match goal with
          | |- context [match ?x with _ => _ end] => case_answer x
          | |- context [if ?x then _ else _] => case_answer x
          end);
  simpl.

(** *** login *)

(** For an eligible account [login] issues exactly one login token, for
    the account's id, hands the mailer exactly one mail that carries that
    token, its expiry and the login URL joined with the token, and answers
    with success without a body; the database is not written. *)
Theorem login_issues_one_token_one_mail (w : World) body b acc :
  auth.Bind_loginRequest body (auth.mkLoginRequest "") = (b, None) ->
  auth.store_GetByEmail (auth.Email b) (auth.w_store w) = Ok acc ->
  auth.CanLogin acc = true ->
  let lt := (auth.Login_CreateToken (acc_ID acc) (auth.w_login w)).1 in
  let content :=
    auth.mkContent (acc_Email acc) (acc_Name acc)
                   (path_Join auth.loginURL (lt_Token lt)) (lt_Token lt)
                   (lt_Expiry lt) in
  exec (auth.login body) w
  = (auth.Respond_NoBody,
     auth.mkWorld (auth.w_store w)
                  (auth.Login_CreateToken (acc_ID acc) (auth.w_login w)).2
                  (auth.w_ticks w) (auth.w_draws w)
                  (auth.w_outbox w ++ [content])%list,
     [Called (auth.GetByEmail (auth.Email b));
      Called (auth.CreateToken (acc_ID acc));
      Called (auth.go_mailer_LoginToken (acc_Name acc) (acc_Email acc) content)]).
Proof.
  intros Hbind Hget Hcan lt content. unfold auth.login. rewrite Hbind. simpl.
  rewrite Hget. simpl. rewrite Hcan. simpl. unfold auth.on_login. simpl.
  subst content lt.
  destruct (auth.Login_CreateToken (acc_ID acc) (auth.w_login w)) as [lt l1].
  reflexivity.
Qed.

(** Every unauthorized answer of [login] leaves the world as it was: no
    login token has been issued and no mail handed over; at most the
    account has been looked up. *)
Theorem login_unauthorized_leaves_world (w : World) body e :
  (exec (auth.login body) w).1.1 = auth.ErrUnauthorized e ->
  (exec (auth.login body) w).1.2 = w
  /\ ((exec (auth.login body) w).2 = []
      \/ exists email, (exec (auth.login body) w).2 = [Called (auth.GetByEmail email)]).
Proof.
  unfold auth.login, auth.on_login.
  destruct (auth.Bind_loginRequest body (auth.mkLoginRequest "")) as [b [err |]];
    simpl; [intros _; split; [reflexivity | left; reflexivity] |].
  destruct (auth.store_GetByEmail (auth.Email b) (auth.w_store w)) as [acc | err];
    simpl; [| intros _; split; [reflexivity | right; eexists; reflexivity]].
  destruct (auth.CanLogin acc); simpl;
    [| intros _; split; [reflexivity | right; eexists; reflexivity]].
  unfold auth.on_login. simpl.
  destruct (auth.Login_CreateToken (acc_ID acc) (auth.w_login w)) as [lt l1].
  simpl. discriminate.
Qed.

(** [login] never writes the database and reads neither the clock nor
    the UUID source, whatever the body and the answers it gets; it answers
    with an unauthorized error or with success, never with an internal
    server error or a token pair. *)
Theorem login_never_writes_database (w : World) body :
  auth.w_store (exec (auth.login body) w).1.2 = auth.w_store w
  /\ auth.w_ticks (exec (auth.login body) w).1.2 = auth.w_ticks w
  /\ auth.w_draws (exec (auth.login body) w).1.2 = auth.w_draws w
  /\ ((exists e, (exec (auth.login body) w).1.1 = auth.ErrUnauthorized e)
      \/ (exec (auth.login body) w).1.1 = auth.Respond_NoBody).
Proof.
  unfold auth.login, auth.on_login. run_cases; repeat split; eauto.
Qed.


(** *** token *)

(** A redemption in which every step succeeds: the look-ups at the issuer
    and the store, one UUID and two clock readings for the new record, the
    save, the signing over the claims of the account and of the record as
    the store left it, a third clock reading and the update of the account
    with that reading as its last login and every other field as it was;
    the answer is the signed pair. *)
Theorem token_success_run (w : World) body UserAgent b id acc saved s1 s2
    access refresh :
  auth.Bind_tokenRequest body (auth.mkTokenRequest "") = (b, None) ->
  auth.Login_GetAccountID (auth.tr_Token b) (auth.w_login w) = Ok id ->
  auth.store_GetByID id (auth.w_store w) = Ok acc ->
  auth.CanLogin acc = true ->
  auth.store_SaveRefreshToken (auth.new_Token amb w acc UserAgent) (auth.w_store w)
  = ((saved, None), s1) ->
  auth.Token_GenTokenPair amb (auth.Account_Claims acc) (auth.Token_Claims saved)
  = Ok (access, refresh) ->
  let stamped :=
    mkAccount (acc_ID acc) (auth.clock amb (2 + auth.w_ticks w)) (acc_Email acc)
              (acc_Name acc) (acc_Active acc) (acc_Roles acc) (acc_Token acc) in
  auth.store_UpdateAccount stamped s1 = (None, s2) ->
  exec (auth.token body UserAgent) w
  = (auth.Respond_tokenResponse access refresh,
     auth.mkWorld s2 (auth.w_login w) (3 + auth.w_ticks w) (1 + auth.w_draws w)
                  (auth.w_outbox w),
     [Called (auth.GetAccountID (auth.tr_Token b)); Called (auth.GetByID id);
      Called auth.uuid_NewV4; Called auth.time_Now; Called auth.time_Now;
      Called (auth.SaveRefreshToken (auth.new_Token amb w acc UserAgent));
      Called (auth.GenTokenPair (auth.Account_Claims acc) (auth.Token_Claims saved));
      Called auth.time_Now;
      Called (auth.UpdateAccount stamped)]).
Proof.
  intros Hbind Hid Hget Hcan Hsave Hsign stamped Hupd. subst stamped.
  unfold auth.token. rewrite Hbind. simpl. rewrite Hid. simpl.
  rewrite Hget. simpl. rewrite Hcan. simpl.
  unfold auth.on_store. simpl. unfold auth.new_Token in Hsave.
  simpl in Hsave. rewrite Hsave. simpl. rewrite Hsign. simpl.
  unfold auth.on_store, auth.set_LastLogin. simpl. simpl in Hupd.
  rewrite Hupd. reflexivity.
Qed.

(** Every unauthorized answer of [token] leaves the world as it was, and
    no call that changes a collaborator or grants a session has been
    issued: nothing was drawn, saved, signed or updated. *)
Theorem token_unauthorized_leaves_world (w : World) body UserAgent e :
  (exec (auth.token body UserAgent) w).1.1 = auth.ErrUnauthorized e ->
  (exec (auth.token body UserAgent) w).1.2 = w
  /\ Forall (fun c => auth.changes_state c = false /\ auth.grants c = false)
            (exec (auth.token body UserAgent) w).2.
Proof.
  unfold auth.token, auth.on_store.
  destruct (auth.Bind_tokenRequest body (auth.mkTokenRequest "")) as [b [err |]];
    simpl; [intros _; split; [reflexivity | constructor] |].
  destruct (auth.Login_GetAccountID (auth.tr_Token b) (auth.w_login w)) as [id | err];
    simpl; [| intros _; split; [reflexivity | repeat constructor]].
  destruct (auth.store_GetByID id (auth.w_store w)) as [acc | err];
    simpl; [| intros _; split; [reflexivity | repeat constructor]].
  destruct (auth.CanLogin acc); simpl;
    [| intros _; split; [reflexivity | repeat constructor]].
  run_cases; discriminate.
Qed.

(** When the store refuses to save the new record, [token] answers with
    an internal server error straight away: no pair is signed and the
    account is not updated. *)
Theorem token_save_failure (w : World) body UserAgent b id acc t' e s1 :
  auth.Bind_tokenRequest body (auth.mkTokenRequest "") = (b, None) ->
  auth.Login_GetAccountID (auth.tr_Token b) (auth.w_login w) = Ok id ->
  auth.store_GetByID id (auth.w_store w) = Ok acc ->
  auth.CanLogin acc = true ->
  auth.store_SaveRefreshToken (auth.new_Token amb w acc UserAgent) (auth.w_store w)
  = ((t', Some e), s1) ->
  exec (auth.token body UserAgent) w
  = (auth.ErrInternalServerError,
     auth.mkWorld s1 (auth.w_login w) (2 + auth.w_ticks w) (1 + auth.w_draws w)
                  (auth.w_outbox w),
     [Called (auth.GetAccountID (auth.tr_Token b)); Called (auth.GetByID id);
      Called auth.uuid_NewV4; Called auth.time_Now; Called auth.time_Now;
      Called (auth.SaveRefreshToken (auth.new_Token amb w acc UserAgent))]).
Proof.
  intros Hbind Hid Hget Hcan Hsave.
  unfold auth.token. rewrite Hbind. simpl. rewrite Hid. simpl.
  rewrite Hget. simpl. rewrite Hcan. simpl.
  unfold auth.on_store. simpl. unfold auth.new_Token in Hsave.
  simpl in Hsave. rewrite Hsave. reflexivity.
Qed.


(** [token], [refresh] and [logout] never ask the issuer for a login
    token and never hand a mail to the mailer, whatever their input and
    the answers they get. *)
Theorem session_handlers_issue_no_login_token (w : World) body UserAgent rt :
  Forall (fun c => auth.is_CreateToken c = false /\ auth.is_mail c = false)
         (exec (auth.token body UserAgent) w).2
  /\ Forall (fun c => auth.is_CreateToken c = false /\ auth.is_mail c = false)
            (exec (auth.refresh rt) w).2
  /\ Forall (fun c => auth.is_CreateToken c = false /\ auth.is_mail c = false)
            (exec (auth.logout rt) w).2.
Proof.
  split; [| split].
  - unfold auth.token. run_cases; repeat constructor.
  - unfold auth.refresh. run_cases; repeat constructor.
  - unfold auth.logout. run_cases; repeat constructor.
Qed.

(** *** refresh *)

(** The run of [refresh] once the record is resolved, has not expired and
    the account may log in: one UUID, two clock readings, the signing over
    the rotated record, then the save, a third clock reading and the
    account update, each step only after the one before has succeeded. *)
Lemma refresh_live_run (w : World) rt acc tok :
  auth.store_GetByRefreshToken rt (auth.w_store w) = Ok (acc, tok) ->
  auth.clock amb (auth.w_ticks w) <= tk_Expiry tok ->
  auth.CanLogin acc = true ->
  let rotated :=
    auth.rotate tok (auth.uuids amb (auth.w_draws w))
      (auth.clock amb (1 + auth.w_ticks w) + auth.jwtRefreshExpiry)
      (auth.clock amb (2 + auth.w_ticks w)) in
  let world s n :=
    auth.mkWorld s (auth.w_login w) (n + auth.w_ticks w) (1 + auth.w_draws w)
                 (auth.w_outbox w) in
  let until_sign :=
    [Called (auth.GetByRefreshToken rt); Called auth.time_Now;
     Called auth.uuid_NewV4; Called auth.time_Now; Called auth.time_Now;
     Called (auth.GenTokenPair (auth.Account_Claims acc) (auth.Token_Claims rotated))] in
  let stamped := auth.set_LastLogin (auth.clock amb (3 + auth.w_ticks w)) acc in
  exec (auth.refresh rt) w
  = match auth.Token_GenTokenPair amb (auth.Account_Claims acc)
            (auth.Token_Claims rotated) with
    | Err _ => (auth.ErrInternalServerError, world (auth.w_store w) 3%nat, until_sign)
    | Ok (access, refresh) =>
        match auth.store_SaveRefreshToken rotated (auth.w_store w) with
        | ((_, Some _), s1) =>
            (auth.ErrInternalServerError, world s1 3%nat,
             (until_sign ++ [Called (auth.SaveRefreshToken rotated)])%list)
        | ((_, None), s1) =>
            match auth.store_UpdateAccount stamped s1 with
            | (err, s2) =>
                (match err with
                 | Some _ => auth.ErrInternalServerError
                 | None => auth.Respond_tokenResponse access refresh
                 end,
                 world s2 4%nat,
                 (until_sign ++
                  [Called (auth.SaveRefreshToken rotated); Called auth.time_Now;
                   Called (auth.UpdateAccount stamped)])%list)
            end
        end
    end.
Proof.
  intros Hget Hlive Hcan rotated world until_sign stamped.
  unfold auth.refresh. simpl. rewrite Hget. simpl.
  unfold After. replace (tk_Expiry tok <? auth.clock amb (auth.w_ticks w)) with false
    by (symmetry; apply Z.ltb_ge; lia).
  simpl. rewrite Hcan. simpl.
  change (auth.Token_Claims _) with (auth.Token_Claims rotated).
  change (auth.SaveRefreshToken _) with (auth.SaveRefreshToken rotated).
  change (auth.store_SaveRefreshToken _) with (auth.store_SaveRefreshToken rotated).
  destruct (auth.Token_GenTokenPair amb (auth.Account_Claims acc)
              (auth.Token_Claims rotated)) as [[access refresh] | e];
    simpl; [| reflexivity].
  unfold auth.on_store. simpl.
  destruct (auth.store_SaveRefreshToken rotated (auth.w_store w))
    as [[saved [e |]] s1]; simpl; [reflexivity |].
  unfold auth.on_store. simpl. subst stamped. simpl.
  destruct (auth.store_UpdateAccount _ s1) as [[e |] s2]; reflexivity.
Qed.

(** A [refresh] that answers with a pair went through every step. *)
Lemma refresh_success_inv (w w' : World) rt access refr tr :
  exec (auth.refresh rt) w = (auth.Respond_tokenResponse access refr, w', tr) ->
  exists acc tok s1 s2,
    auth.store_GetByRefreshToken rt (auth.w_store w) = Ok (acc, tok)
    /\ auth.clock amb (auth.w_ticks w) <= tk_Expiry tok
    /\ auth.CanLogin acc = true
    /\ let rotated :=
         auth.rotate tok (auth.uuids amb (auth.w_draws w))
           (auth.clock amb (1 + auth.w_ticks w) + auth.jwtRefreshExpiry)
           (auth.clock amb (2 + auth.w_ticks w)) in
       (exists saved,
           auth.store_SaveRefreshToken rotated (auth.w_store w) = ((saved, None), s1))
       /\ auth.store_UpdateAccount
            (auth.set_LastLogin (auth.clock amb (3 + auth.w_ticks w)) acc) s1
          = (None, s2)
       /\ auth.w_store w' = s2.
Proof.
  intros Hrun.
  destruct (auth.store_GetByRefreshToken rt (auth.w_store w))
    as [[acc tok] | e] eqn:Hget.
  2: { unfold auth.refresh in Hrun. simpl in Hrun. rewrite Hget in Hrun.
       discriminate. }
  destruct (Z.ltb_spec (tk_Expiry tok) (auth.clock amb (auth.w_ticks w)))
    as [Hexp | Hlive].
  { unfold auth.refresh in Hrun. simpl in Hrun. rewrite Hget in Hrun.
    simpl in Hrun. unfold After in Hrun. apply Z.ltb_lt in Hexp.
    rewrite Hexp in Hrun. simpl in Hrun. unfold auth.on_store in Hrun.
    simpl in Hrun.
    destruct (auth.store_DeleteRefreshToken tok (auth.w_store w)); discriminate. }
  destruct (auth.CanLogin acc) eqn:Hcan.
  2: { unfold auth.refresh in Hrun. simpl in Hrun. rewrite Hget in Hrun.
       simpl in Hrun. unfold After in Hrun.
       replace (tk_Expiry tok <? auth.clock amb (auth.w_ticks w)) with false in Hrun
         by (symmetry; apply Z.ltb_ge; lia).
       simpl in Hrun. rewrite Hcan in Hrun. discriminate. }
  rewrite (refresh_live_run w rt acc tok Hget Hlive Hcan) in Hrun.
  exists acc, tok.
  destruct (auth.Token_GenTokenPair amb _ _) as [[a r] | e]; [| discriminate].
  destruct (auth.store_SaveRefreshToken _ (auth.w_store w))
    as [[saved [e |]] s1] eqn:Hsave; [discriminate |].
  destruct (auth.store_UpdateAccount _ s1) as [[e |] s2] eqn:Hupd; [discriminate |].
  exists s1, s2. injection Hrun as _ _ <- _.
  repeat split; try assumption; try reflexivity.
  exists saved. exact Hsave.
Qed.

(** In [refresh] the pair is signed before the record is saved: when
    signing fails the answer is an internal server error and the database
    is left as it was, so the presented token is still the stored one. *)
Theorem refresh_signing_failure_keeps_database (w : World) rt acc tok e :
  auth.store_GetByRefreshToken rt (auth.w_store w) = Ok (acc, tok) ->
  auth.clock amb (auth.w_ticks w) <= tk_Expiry tok ->
  auth.CanLogin acc = true ->
  auth.Token_GenTokenPair amb (auth.Account_Claims acc)
    (auth.Token_Claims
       (auth.rotate tok (auth.uuids amb (auth.w_draws w))
          (auth.clock amb (1 + auth.w_ticks w) + auth.jwtRefreshExpiry)
          (auth.clock amb (2 + auth.w_ticks w))))
  = Err e ->
  (exec (auth.refresh rt) w).1.1 = auth.ErrInternalServerError
  /\ auth.w_store (exec (auth.refresh rt) w).1.2 = auth.w_store w
  /\ Forall (fun c => auth.changes_state c = false) (exec (auth.refresh rt) w).2.
Proof.
  intros Hget Hlive Hcan Hsign.
  rewrite (refresh_live_run w rt acc tok Hget Hlive Hcan). cbv zeta.
  rewrite Hsign. simpl. repeat split. repeat constructor.
Qed.

(** When the store refuses to save the rotated record, [refresh] answers
    with an internal server error at once: the clock is not read again
    and the account's last login is not written. *)
Theorem refresh_save_failure (w : World) rt acc tok access refr t' e s1 :
  auth.store_GetByRefreshToken rt (auth.w_store w) = Ok (acc, tok) ->
  auth.clock amb (auth.w_ticks w) <= tk_Expiry tok ->
  auth.CanLogin acc = true ->
  let rotated :=
    auth.rotate tok (auth.uuids amb (auth.w_draws w))
      (auth.clock amb (1 + auth.w_ticks w) + auth.jwtRefreshExpiry)
      (auth.clock amb (2 + auth.w_ticks w)) in
  auth.Token_GenTokenPair amb (auth.Account_Claims acc) (auth.Token_Claims rotated)
  = Ok (access, refr) ->
  auth.store_SaveRefreshToken rotated (auth.w_store w) = ((t', Some e), s1) ->
  exec (auth.refresh rt) w
  = (auth.ErrInternalServerError,
     auth.mkWorld s1 (auth.w_login w) (3 + auth.w_ticks w) (1 + auth.w_draws w)
                  (auth.w_outbox w),
     [Called (auth.GetByRefreshToken rt); Called auth.time_Now;
      Called auth.uuid_NewV4; Called auth.time_Now; Called auth.time_Now;
      Called (auth.GenTokenPair (auth.Account_Claims acc) (auth.Token_Claims rotated));
      Called (auth.SaveRefreshToken rotated)]).
Proof.
  intros Hget Hlive Hcan rotated Hsign Hsave. subst rotated.
  rewrite (refresh_live_run w rt acc tok Hget Hlive Hcan). cbv zeta.
  rewrite Hsign, Hsave. reflexivity.
Qed.

(** A [refresh] in which every step succeeds answers with the pair signed
    over the rotated record, saves that record (the resolved record with
    the drawn UUID as token string, the second clock reading plus the
    refresh life time as expiry and the third clock reading as updated-at)
    and writes the account with the fourth clock reading as its last login
    and every other field as it was. *)
Theorem refresh_success_run (w : World) rt acc tok access refr saved s1 s2 :
  auth.store_GetByRefreshToken rt (auth.w_store w) = Ok (acc, tok) ->
  auth.clock amb (auth.w_ticks w) <= tk_Expiry tok ->
  auth.CanLogin acc = true ->
  let rotated :=
    mkToken (tk_ID tok) (auth.uuids amb (auth.w_draws w))
            (auth.clock amb (1 + auth.w_ticks w) + auth.jwtRefreshExpiry)
            (auth.clock amb (2 + auth.w_ticks w))
            (tk_AccountID tok) (tk_Mobile tok) (tk_Identifier tok) in
  let stamped :=
    mkAccount (acc_ID acc) (auth.clock amb (3 + auth.w_ticks w)) (acc_Email acc)
              (acc_Name acc) (acc_Active acc) (acc_Roles acc) (acc_Token acc) in
  auth.Token_GenTokenPair amb (auth.Account_Claims acc) (auth.Token_Claims rotated)
  = Ok (access, refr) ->
  auth.store_SaveRefreshToken rotated (auth.w_store w) = ((saved, None), s1) ->
  auth.store_UpdateAccount stamped s1 = (None, s2) ->
  exec (auth.refresh rt) w
  = (auth.Respond_tokenResponse access refr,
     auth.mkWorld s2 (auth.w_login w) (4 + auth.w_ticks w) (1 + auth.w_draws w)
                  (auth.w_outbox w),
     [Called (auth.GetByRefreshToken rt); Called auth.time_Now;
      Called auth.uuid_NewV4; Called auth.time_Now; Called auth.time_Now;
      Called (auth.GenTokenPair (auth.Account_Claims acc) (auth.Token_Claims rotated));
      Called (auth.SaveRefreshToken rotated); Called auth.time_Now;
      Called (auth.UpdateAccount stamped)]).
Proof.
  intros Hget Hlive Hcan rotated stamped Hsign Hsave Hupd. subst rotated stamped.
  rewrite (refresh_live_run w rt acc tok Hget Hlive Hcan). cbv zeta.
  unfold auth.rotate, auth.set_LastLogin.
  rewrite Hsign, Hsave, Hupd. reflexivity.
Qed.

(** When the record has been rotated and the account update then fails,
    [refresh] answers with an internal server error although the
    presented token is already dead: the database no longer resolves it
    and resolves the new string, which the client never receives. *)
Theorem refresh_update_failure_after_rotation `{!auth.StorerLaws S}
    (w : World) rt acc tok access refr saved s1 e s2 :
  auth.store_GetByRefreshToken rt (auth.w_store w) = Ok (acc, tok) ->
  auth.clock amb (auth.w_ticks w) <= tk_Expiry tok ->
  auth.CanLogin acc = true ->
  auth.uuids amb (auth.w_draws w) <> rt ->
  let rotated :=
    auth.rotate tok (auth.uuids amb (auth.w_draws w))
      (auth.clock amb (1 + auth.w_ticks w) + auth.jwtRefreshExpiry)
      (auth.clock amb (2 + auth.w_ticks w)) in
  auth.Token_GenTokenPair amb (auth.Account_Claims acc) (auth.Token_Claims rotated)
  = Ok (access, refr) ->
  auth.store_SaveRefreshToken rotated (auth.w_store w) = ((saved, None), s1) ->
  auth.store_UpdateAccount
    (auth.set_LastLogin (auth.clock amb (3 + auth.w_ticks w)) acc) s1
  = (Some e, s2) ->
  (exec (auth.refresh rt) w).1.1 = auth.ErrInternalServerError
  /\ auth.w_store (exec (auth.refresh rt) w).1.2 = s2
  /\ (exists e', auth.store_GetByRefreshToken rt s2 = Err e')
  /\ (exists a1, auth.store_GetByRefreshToken (auth.uuids amb (auth.w_draws w)) s2
                 = Ok (a1, rotated)).
Proof.
  intros Hget Hlive Hcan Hfresh rotated Hsign Hsave Hupd.
  rewrite (refresh_live_run w rt acc tok Hget Hlive Hcan). cbv zeta.
  fold rotated. rewrite Hsign, Hsave, Hupd. simpl.
  split; [reflexivity |]. split; [reflexivity |].
  pose proof (auth.resolved_account _ _ _ _ Hget) as Hacc.
  pose proof (auth.resolved_has_key _ _ _ _ Hget) as Hkey.
  destruct (auth.save_stores _ _ rotated saved acc Hacc Hsave) as (Hnew & Hshape & Hid).
  assert (Hsaved : saved = rotated).
  { rewrite Hshape. rewrite (Hid Hkey). reflexivity. }
  subst saved.
  destruct (auth.save_replaces _ _ rt acc tok rotated rotated Hget eq_refl Hfresh Hsave)
    as [e0 He0].
  split.
  - pose proof (auth.update_account_keeps _ _ _ _ rt Hupd) as Hk.
    rewrite He0 in Hk. exact Hk.
  - pose proof (auth.update_account_keeps _ _ _ _ (tk_Token rotated) Hupd) as Hk.
    rewrite Hnew in Hk. exact Hk.
Qed.

(** [refresh] deletes a record only when its expiry lies strictly before
    the clock reading: a record that expires at the very instant of the
    reading, or later, is never deleted, whatever happens afterwards. *)
Theorem refresh_keeps_live_record (w : World) rt acc tok :
  auth.store_GetByRefreshToken rt (auth.w_store w) = Ok (acc, tok) ->
  auth.clock amb (auth.w_ticks w) <= tk_Expiry tok ->
  Forall (fun c => auth.is_DeleteRefreshToken c = false) (exec (auth.refresh rt) w).2.
Proof.
  intros Hget Hlive. unfold auth.refresh. simpl. rewrite Hget. simpl.
  unfold After. replace (tk_Expiry tok <? auth.clock amb (auth.w_ticks w)) with false
    by (symmetry; apply Z.ltb_ge; lia).
  run_cases; repeat constructor.
Qed.

(** *** logout *)

(** [logout] issues the look-up and at most one deletion, and nothing
    else: it reads neither the clock nor the UUID source and signs
    nothing; it answers with token-expired or with success. *)
Theorem logout_footprint (w : World) rt :
  auth.w_ticks (exec (auth.logout rt) w).1.2 = auth.w_ticks w
  /\ auth.w_draws (exec (auth.logout rt) w).1.2 = auth.w_draws w
  /\ (((exec (auth.logout rt) w).1.1 = auth.ErrUnauthorized auth.errTokenExpired
       /\ (exec (auth.logout rt) w).1.2 = w
       /\ (exec (auth.logout rt) w).2 = [Called (auth.GetByRefreshToken rt)])
      \/ (exists tok,
             (exec (auth.logout rt) w).1.1 = auth.Respond_NoBody
             /\ (exec (auth.logout rt) w).2
                = [Called (auth.GetByRefreshToken rt);
                   Called (auth.DeleteRefreshToken tok)])).
Proof.
  unfold auth.logout. simpl.
  destruct (auth.store_GetByRefreshToken rt (auth.w_store w)) as [[acc tok] | e];
    simpl.
  - unfold auth.on_store.
    destruct (auth.store_DeleteRefreshToken tok (auth.w_store w)) as [err s1].
    simpl. split; [reflexivity |]. split; [reflexivity |].
    right. exists tok. split; reflexivity.
  - split; [reflexivity |]. split; [reflexivity |]. left. repeat split.
Qed.

(** *** The handlers in sequence *)

(** After a [refresh] that answered with a pair, the string that was
    presented is spent: a second [refresh] and a [logout] with it are
    answered with token-expired and change nothing. *)
Theorem refresh_spends_presented_token `{!auth.StorerLaws S}
    (w w' : World) rt access refr tr :
  exec (auth.refresh rt) w = (auth.Respond_tokenResponse access refr, w', tr) ->
  auth.uuids amb (auth.w_draws w) <> rt ->
  exec (auth.refresh rt) w'
  = (auth.ErrUnauthorized auth.errTokenExpired, w', [Called (auth.GetByRefreshToken rt)])
  /\ exec (auth.logout rt) w'
     = (auth.ErrUnauthorized auth.errTokenExpired, w',
        [Called (auth.GetByRefreshToken rt)]).
Proof.
  intros Hrun Hfresh.
  destruct (refresh_success_inv w w' rt access refr tr Hrun)
    as (acc & tok & s1 & s2 & Hget & Hlive & Hcan & [saved Hsave] & Hupd & Hstore).
  destruct (auth.save_replaces _ _ rt acc tok
              (auth.rotate tok (auth.uuids amb (auth.w_draws w))
                 (auth.clock amb (1 + auth.w_ticks w) + auth.jwtRefreshExpiry)
                 (auth.clock amb (2 + auth.w_ticks w)))
              saved Hget eq_refl Hfresh Hsave)
    as [e He].
  pose proof (auth.update_account_keeps _ _ _ _ rt Hupd) as Hk.
  rewrite He in Hk. destruct Hk as [e' He'].
  apply (unresolvable_refresh_token amb w' rt e'). rewrite Hstore. exact He'.
Qed.

(** A [token] that answered with a pair went through every step. *)
Lemma token_success_inv (w w' : World) body UserAgent access refr tr :
  exec (auth.token body UserAgent) w = (auth.Respond_tokenResponse access refr, w', tr) ->
  exists id acc saved s1 s2,
    auth.store_GetByID id (auth.w_store w) = Ok acc
    /\ auth.store_SaveRefreshToken (auth.new_Token amb w acc UserAgent) (auth.w_store w)
       = ((saved, None), s1)
    /\ auth.store_UpdateAccount
         (auth.set_LastLogin (auth.clock amb (2 + auth.w_ticks w)) acc) s1
       = (None, s2)
    /\ auth.w_store w' = s2.
Proof.
  unfold auth.token.
  destruct (auth.Bind_tokenRequest body (auth.mkTokenRequest "")) as [b [err |]];
    simpl; [discriminate |].
  destruct (auth.Login_GetAccountID (auth.tr_Token b) (auth.w_login w)) as [id | err];
    simpl; [| discriminate].
  destruct (auth.store_GetByID id (auth.w_store w)) as [acc | err] eqn:Hget;
    simpl; [| discriminate].
  destruct (auth.CanLogin acc); simpl; [| discriminate].
  unfold auth.on_store. simpl.
  change (mkToken 0 _ _ _ _ _ _) with (auth.new_Token amb w acc UserAgent).
  destruct (auth.store_SaveRefreshToken (auth.new_Token amb w acc UserAgent)
              (auth.w_store w)) as [[saved [e |]] s1] eqn:Hsave;
    simpl; [discriminate |].
  destruct (auth.Token_GenTokenPair amb _ _) as [[a r] | e]; simpl; [| discriminate].
  unfold auth.on_store. simpl.
  destruct (auth.store_UpdateAccount _ s1) as [[e |] s2] eqn:Hupd;
    simpl; [discriminate |].
  intros [= _ _ <- _]. exists id, acc, saved, s1, s2.
  repeat split; first [assumption | reflexivity].
Qed.

(** The record behind a pair that [token] has answered with can be used
    at once: a [logout] with its token string (the UUID drawn during the
    redemption) resolves the record the store saved and is answered with
    success. *)
Theorem token_then_logout `{!auth.StorerLaws S}
    (w w' : World) body UserAgent access refr tr :
  exec (auth.token body UserAgent) w = (auth.Respond_tokenResponse access refr, w', tr) ->
  exists saved,
    tk_Token saved = auth.uuids amb (auth.w_draws w)
    /\ (exec (auth.logout (auth.uuids amb (auth.w_draws w))) w').1.1
       = auth.Respond_NoBody
    /\ (exec (auth.logout (auth.uuids amb (auth.w_draws w))) w').2
       = [Called (auth.GetByRefreshToken (auth.uuids amb (auth.w_draws w)));
          Called (auth.DeleteRefreshToken saved)].
Proof.
  intros Hrun.
  destruct (token_success_inv w w' body UserAgent access refr tr Hrun)
    as (id & acc & saved & s1 & s2 & Hget & Hsave & Hupd & Hstore).
  pose proof (auth.resolved_id _ _ _ Hget) as Hid.
  assert (Hacc : auth.store_GetByID
                   (tk_AccountID (auth.new_Token amb w acc UserAgent)) (auth.w_store w)
                 = Ok acc).
  { simpl. rewrite Hid. exact Hget. }
  destruct (auth.save_stores _ _ _ saved acc Hacc Hsave) as (Hnew & Hshape & _).
  simpl in Hnew.
  pose proof (auth.update_account_keeps _ _ _ _ (auth.uuids amb (auth.w_draws w)) Hupd)
    as Hk.
  rewrite Hnew in Hk. destruct Hk as [a1 Ha1].
  exists saved. split; [rewrite Hshape; reflexivity |].
  apply (logout_ignores_delete_error amb w' _ a1 saved).
  rewrite Hstore. exact Ha1.
Qed.

End SessionMore.

(** ** The read-only account table keeps the store's contract *)

Section FrozenStore.

Lemma frozen_inv {X : Type} (r : X * mem.DB) x f :
  mem.frozen r = (x, f) -> r = (x, mem.thaw f).
Proof.
  destruct r as [x0 db]. unfold mem.frozen. simpl. intros [= <- <-]. reflexivity.
Qed.

#[global] Instance Frozen_StorerLaws : auth.StorerLaws mem.Frozen.
Proof.
  split; simpl.
  - intros s id a Hget. exact (auth.resolved_id (mem.thaw s) id a Hget).
  - intros s x a row Hget. exact (auth.resolved_has_key (mem.thaw s) x a row Hget).
  - intros s x a row Hget. exact (auth.resolved_account (mem.thaw s) x a row Hget).
  - intros s s' t t' a Hacc Hsave. apply frozen_inv in Hsave.
    exact (mem_save_stores _ _ _ _ _ Hacc Hsave).
  - intros s s' old a row t t' Hget Hid Hne Hsave. apply frozen_inv in Hsave.
    exact (mem_save_replaces _ _ _ _ _ _ _ Hget Hid Hne Hsave).
  - intros s s' x a row Hget Hdel. apply frozen_inv in Hdel.
    exact (mem_delete_removes _ _ _ _ _ Hget Hdel).
  - intros s s' acc r x [= _ <-].
    destruct (mem.GetByRefreshToken x (mem.thaw s)) as [[a row] | e]; eauto.
Qed.

End FrozenStore.

(** ** The further properties at work in the small world *)

Section SmallWorldMore.

Local Abbreviation exec p w := (run (auth.handler mem.ambient) p w).
Local Abbreviation store p s := (run app.store_handler p (s : mem.DB)).

(** Alice fetches her account. *)
Lemma router_resolved_runs_route_witness :
  store (app.router (app.mkRequest 1 app.GET_root None)) sample.db0
  = (app.Respond_account sample.alice_loaded, sample.db0, [Called (app.Get 1)]).
Proof.
  assert (Hget : app.Store_Get 1 sample.db0 = Ok sample.alice_loaded)
    by (vm_compute; reflexivity).
  exact (proj2 (router_resolved_runs_route (app.mkRequest 1 app.GET_root None)
                  sample.db0 sample.alice_loaded Hget) eq_refl).
Defined.

(** An update without a body. *)
Lemma update_unbound_body_writes_nothing_witness :
  store (app.update sample.alice_loaded None) sample.db0
  = (app.ErrInvalidRequest (PlainError "render: unable to decode the request body"),
     sample.db0, []).
Proof.
  apply update_unbound_body_writes_nothing. reflexivity.
Defined.

(** Alice changes her name and her address. *)
Lemma update_store_outcomes_witness :
  (store (app.update sample.alice_loaded (sample.account_body "Al" "al@example.com"))
         sample.db0).1.1
  = app.Respond_account
      (app.put_Email "al@example.com" (app.put_Name "Al" sample.alice_loaded)).
Proof.
  rewrite (update_store_outcomes sample.alice_loaded
             (sample.account_body "Al" "al@example.com") sample.db0
             (app.mkAccountRequest
                (app.put_Email "al@example.com" (app.put_Name "Al" sample.alice_loaded))
                0 false []))
    by (vm_compute; reflexivity).
  vm_compute. reflexivity.
Defined.

(** Alice renames her token 1; the body's own id 99 plays no part. *)
Lemma updateToken_renames_owned_token_witness :
  (store (app.updateToken sample.alice_loaded "1"
            (Some (JObj [("Identifier", JStr " Laptop "); ("id", JInt 99)])))
         sample.db0).2
  = [Called (app.UpdateToken (mkToken 1 "" 0 0 0 false "Laptop"))].
Proof.
  assert (Hpre : ~ In 1 (List.map tk_ID [mkToken 2 "old" 50 10 1 false "Safari on iOS"])).
  { simpl. intros [Heq | []]. discriminate. }
  assert (Hpost : ~ In 1 (List.map tk_ID (@nil Token))) by (simpl; tauto).
  assert (Hrange : - 2 ^ 63 <= 99 < 2 ^ 63) by lia.
  assert (Hstore : app.Store_UpdateToken
                     (mkToken 1 "" 0 0 0 false (TrimSpace " Laptop ")) sample.db0
                   = (None,
                      (mem.UpdateToken (mkToken 1 "" 0 0 0 false "Laptop") sample.db0).2))
    by (vm_compute; reflexivity).
  rewrite (updateToken_renames_owned_token sample.alice_loaded "1" 1 " Laptop " 99
             [mkToken 2 "old" 50 10 1 false "Safari on iOS"] [] sample.r1
             sample.db0 _ eq_refl eq_refl eq_refl Hpre Hpost Hrange Hstore).
  reflexivity.
Defined.

(** The database is down: the rename of Alice's token 2 is refused and
    answered with the store's error. *)
Lemma updateToken_stops_at_store_error_witness :
  store (app.updateToken sample.alice_loaded "2" (sample.rename_body "Phone"))
        sample.db_down
  = (app.ErrInvalidRequest (PlainError "database is down"), sample.db_down,
     [Called (app.UpdateToken (mkToken 2 "" 0 0 0 false "Phone"))]).
Proof.
  assert (Hpre : ~ In 2 (List.map tk_ID (@nil Token))) by (simpl; tauto).
  assert (Hbind : app.Bind_tokenRequest (sample.rename_body "Phone")
                    (app.mkTokenRequest "" 0)
                  = (app.mkTokenRequest "Phone" 0, None))
    by (vm_compute; reflexivity).
  assert (Hstore : app.Store_UpdateToken
                     (app.renamed (app.Identifier (app.mkTokenRequest "Phone" 0))
                        (mkToken 2 "old" 50 10 1 false "Safari on iOS"))
                     sample.db_down
                   = (Some (PlainError "database is down"), sample.db_down))
    by (vm_compute; reflexivity).
  exact (updateToken_stops_at_store_error sample.alice_loaded "2" 2
           (sample.rename_body "Phone") (app.mkTokenRequest "Phone" 0)
           [] [sample.r1] (mkToken 2 "old" 50 10 1 false "Safari on iOS")
           (PlainError "database is down") sample.db_down sample.db_down
           eq_refl Hbind eq_refl eq_refl Hpre Hstore).
Defined.

(** Alice asks for a login token: one token, one mail. *)
Lemma login_issues_one_token_one_mail_witness :
  (exec (auth.login (sample.login_body " Alice@Example.com")) sample.w0).1.1
  = auth.Respond_NoBody
  /\ auth.w_outbox
       (exec (auth.login (sample.login_body " Alice@Example.com")) sample.w0).1.2
     = [auth.mkContent "alice@example.com" "Alice" "/login/next" "next" 400].
Proof.
  rewrite (login_issues_one_token_one_mail mem.ambient sample.w0
             (sample.login_body " Alice@Example.com")
             (auth.mkLoginRequest "alice@example.com") sample.alice)
    by (vm_compute; reflexivity).
  split; vm_compute; reflexivity.
Defined.

(** Nobody is registered under this address. *)
Lemma login_unauthorized_leaves_world_witness :
  (exec (auth.login (sample.login_body "nobody@example.com")) sample.w0).1.2
  = sample.w0.
Proof.
  refine (proj1 (login_unauthorized_leaves_world mem.ambient sample.w0
                   (sample.login_body "nobody@example.com") auth.ErrUnknownLogin _)).
  vm_compute. reflexivity.
Defined.

(** Alice redeems her login token. *)
Lemma token_success_run_witness :
  (exec (auth.token (sample.token_body "abc1") "Firefox") sample.w0).1.1
  = auth.Respond_tokenResponse "access:alice@example.com" "refresh:uuid0".
Proof.
  pose (new := auth.new_Token mem.ambient sample.w0 sample.alice "Firefox").
  pose (s1 := (mem.SaveRefreshToken new sample.db0).2).
  pose (s2 := (mem.UpdateAccount (auth.set_LastLogin 102 sample.alice) s1).2).
  rewrite (token_success_run mem.ambient sample.w0 (sample.token_body "abc1") "Firefox"
             (auth.mkTokenRequest "abc1") 1 sample.alice
             (mkToken 5 "uuid0" 3700 101 1 false "Firefox on Linux") s1 s2
             "access:alice@example.com" "refresh:uuid0")
    by (vm_compute; reflexivity).
  reflexivity.
Defined.

(** Bob's login token is resolved, but Bob may not log in. *)
Lemma token_unauthorized_leaves_world_witness :
  (exec (auth.token (sample.token_body "bob2") "Firefox") sample.w0).1.2 = sample.w0.
Proof.
  refine (proj1 (token_unauthorized_leaves_world mem.ambient sample.w0
                   (sample.token_body "bob2") "Firefox" auth.ErrLoginDisabled _)).
  vm_compute. reflexivity.
Defined.

(** The drawn UUID is already taken: the save is refused. *)
Lemma token_save_failure_witness :
  (exec (auth.token (sample.token_body "abc1") "Firefox") sample.w1).1.1
  = auth.ErrInternalServerError
  /\ List.length (exec (auth.token (sample.token_body "abc1") "Firefox") sample.w1).2
     = 6%nat.
Proof.
  rewrite (token_save_failure mem.ambient sample.w1 (sample.token_body "abc1") "Firefox"
             (auth.mkTokenRequest "abc1") 1 sample.alice
             (auth.new_Token mem.ambient sample.w1 sample.alice "Firefox")
             mem.not_unique sample.db1)
    by (vm_compute; reflexivity).
  split; reflexivity.
Defined.

(** The signer fails during Alice's refresh: [r1] stays her token. *)
Lemma refresh_signing_failure_keeps_database_witness :
  (run (auth.handler mem.ambient_unsigned) (auth.refresh "r1") sample.w0).1.1
  = auth.ErrInternalServerError
  /\ auth.w_store (run (auth.handler mem.ambient_unsigned) (auth.refresh "r1")
                       sample.w0).1.2
     = sample.db0.
Proof.
  assert (Hget : auth.store_GetByRefreshToken "r1" (auth.w_store sample.w0)
                 = Ok (sample.alice, sample.r1)) by (vm_compute; reflexivity).
  assert (Hlive : auth.clock mem.ambient_unsigned (auth.w_ticks sample.w0)
                  <= tk_Expiry sample.r1) by (vm_compute; discriminate).
  destruct (refresh_signing_failure_keeps_database mem.ambient_unsigned sample.w0 "r1"
              sample.alice sample.r1 (PlainError "signing failed")
              Hget Hlive eq_refl eq_refl) as (Hanswer & Hstore & _).
  split; [exact Hanswer | exact Hstore].
Defined.

(** The drawn UUID is already taken: the rotated record is refused. *)
Lemma refresh_save_failure_witness :
  (exec (auth.refresh "r1") sample.w1).1.1 = auth.ErrInternalServerError
  /\ List.length (exec (auth.refresh "r1") sample.w1).2 = 7%nat.
Proof.
  assert (Hget : auth.store_GetByRefreshToken "r1" (auth.w_store sample.w1)
                 = Ok (sample.alice, sample.r1)) by (vm_compute; reflexivity).
  assert (Hlive : auth.clock mem.ambient (auth.w_ticks sample.w1)
                  <= tk_Expiry sample.r1) by (vm_compute; discriminate).
  rewrite (refresh_save_failure mem.ambient sample.w1 "r1" sample.alice sample.r1
             "access:alice@example.com" "refresh:uuid0"
             (auth.rotate sample.r1 "uuid0" 3701 102) mem.not_unique sample.db1
             Hget Hlive eq_refl)
    by (vm_compute; reflexivity).
  split; reflexivity.
Defined.

(** Alice refreshes with [r1]. *)
Lemma refresh_success_run_witness :
  (exec (auth.refresh "r1") sample.w0).1.1
  = auth.Respond_tokenResponse "access:alice@example.com" "refresh:uuid0"
  /\ List.length (exec (auth.refresh "r1") sample.w0).2 = 9%nat.
Proof.
  assert (Hget : auth.store_GetByRefreshToken "r1" (auth.w_store sample.w0)
                 = Ok (sample.alice, sample.r1)) by (vm_compute; reflexivity).
  assert (Hlive : auth.clock mem.ambient (auth.w_ticks sample.w0)
                  <= tk_Expiry sample.r1) by (vm_compute; discriminate).
  pose (rotated := auth.rotate sample.r1 "uuid0" 3701 102).
  pose (s1 := (mem.SaveRefreshToken rotated sample.db0).2).
  pose (s2 := (mem.UpdateAccount (auth.set_LastLogin 103 sample.alice) s1).2).
  rewrite (refresh_success_run mem.ambient sample.w0 "r1" sample.alice sample.r1
             "access:alice@example.com" "refresh:uuid0" rotated s1 s2
             Hget Hlive eq_refl)
    by (vm_compute; reflexivity).
  split; reflexivity.
Defined.

(** The account table cannot be written: Alice's refresh is answered with
    an internal server error, and [r1] is dead all the same. *)
Lemma refresh_update_failure_after_rotation_witness :
  (run (auth.handler mem.ambient) (auth.refresh "r1") sample.w_frozen).1.1
  = auth.ErrInternalServerError
  /\ exists e,
       mem.GetByRefreshToken "r1"
         (mem.thaw (auth.w_store
                      (run (auth.handler mem.ambient) (auth.refresh "r1")
                           sample.w_frozen).1.2))
       = Err e.
Proof.
  assert (Hget : auth.store_GetByRefreshToken "r1" (auth.w_store sample.w_frozen)
                 = Ok (sample.alice, sample.r1)) by (vm_compute; reflexivity).
  assert (Hlive : auth.clock mem.ambient (auth.w_ticks sample.w_frozen)
                  <= tk_Expiry sample.r1) by (vm_compute; discriminate).
  assert (Hfresh : auth.uuids mem.ambient (auth.w_draws sample.w_frozen) <> "r1")
    by (vm_compute; discriminate).
  pose (rotated := auth.rotate sample.r1 "uuid0" 3701 102).
  pose (s1 := mem.mkFrozen (mem.SaveRefreshToken rotated sample.db0).2).
  assert (Hsave : auth.store_SaveRefreshToken
                    (auth.rotate sample.r1
                       (auth.uuids mem.ambient (auth.w_draws sample.w_frozen))
                       (auth.clock mem.ambient (1 + auth.w_ticks sample.w_frozen)
                        + auth.jwtRefreshExpiry)
                       (auth.clock mem.ambient (2 + auth.w_ticks sample.w_frozen)))
                    (auth.w_store sample.w_frozen)
                  = ((rotated, None), s1)) by (vm_compute; reflexivity).
  destruct (refresh_update_failure_after_rotation mem.ambient sample.w_frozen "r1"
              sample.alice sample.r1 "access:alice@example.com" "refresh:uuid0"
              rotated s1 (PlainError "accounts are read-only") s1
              Hget Hlive eq_refl Hfresh eq_refl Hsave eq_refl)
    as (Hanswer & Hstore & Hdead & _).
  split; [exact Hanswer |]. rewrite Hstore. exact Hdead.
Defined.

(** Alice's token [edge] expires at the very instant of the clock
    reading: it is not deleted. *)
Lemma refresh_keeps_live_record_witness :
  Forall (fun c => auth.is_DeleteRefreshToken c = false)
         (exec (auth.refresh "edge") sample.w1).2.
Proof.
  assert (Hget : auth.store_GetByRefreshToken "edge" (auth.w_store sample.w1)
                 = Ok (sample.alice, sample.edge)) by (vm_compute; reflexivity).
  assert (Hlive : auth.clock mem.ambient (auth.w_ticks sample.w1)
                  <= tk_Expiry sample.edge) by (vm_compute; discriminate).
  exact (refresh_keeps_live_record mem.ambient sample.w1 "edge" sample.alice
           sample.edge Hget Hlive).
Defined.

(** Alice refreshes with [r1] twice: the second time [r1] is spent. *)
Lemma refresh_spends_presented_token_witness :
  (exec (auth.refresh "r1") (exec (auth.refresh "r1") sample.w0).1.2).1.1
  = auth.ErrUnauthorized auth.errTokenExpired.
Proof.
  assert (Hrun : exec (auth.refresh "r1") sample.w0
                 = (auth.Respond_tokenResponse "access:alice@example.com" "refresh:uuid0",
                    (exec (auth.refresh "r1") sample.w0).1.2,
                    (exec (auth.refresh "r1") sample.w0).2))
    by (vm_compute; reflexivity).
  assert (Hfresh : auth.uuids mem.ambient (auth.w_draws sample.w0) <> "r1")
    by (vm_compute; discriminate).
  destruct (refresh_spends_presented_token mem.ambient sample.w0 _ "r1" _ _ _
              Hrun Hfresh) as [Hagain _].
  rewrite Hagain. reflexivity.
Defined.

(** Alice redeems her login token and logs out with the new token. *)
Lemma token_then_logout_witness :
  (exec (auth.logout "uuid0")
        (exec (auth.token (sample.token_body "abc1") "Firefox") sample.w0).1.2).1.1
  = auth.Respond_NoBody.
Proof.
  assert (Hrun : exec (auth.token (sample.token_body "abc1") "Firefox") sample.w0
                 = (auth.Respond_tokenResponse "access:alice@example.com" "refresh:uuid0",
                    (exec (auth.token (sample.token_body "abc1") "Firefox") sample.w0).1.2,
                    (exec (auth.token (sample.token_body "abc1") "Firefox") sample.w0).2))
    by (vm_compute; reflexivity).
  destruct (token_then_logout mem.ambient sample.w0 _ (sample.token_body "abc1")
              "Firefox" _ _ _ Hrun) as (saved & _ & Hanswer & _).
  exact Hanswer.
Defined.

End SmallWorldMore.

(** ** The token routes on a token that is not the caller's, in full *)

Section ForeignToken.
Context `{GoLib}.
Context {S : Type} `{app.AccountStore S}.

(** C4 (as amended): a request to rename or delete a device token whose
    id is not among the caller's own tokens never reaches the store after
    the middleware's look-up and leaves the database as it was.  It is
    answered with the bad-request error when the token id of the URL is
    not a number, with the invalid-request error when the body of a rename
    does not bind, and with success and no body otherwise. *)
Theorem foreign_token_request_outcomes (cid : Z) (tokenID : string)
    (body : option json) (acc : Account) (s : S) :
  app.Store_Get cid s = Ok acc ->
  (forall id, Atoi tokenID = Some id -> ~ In id (List.map tk_ID (acc_Token acc))) ->
  run app.store_handler (app.router (app.mkRequest cid (app.PUT_token tokenID) body)) s
  = (match Atoi tokenID with
     | None => app.ErrBadRequest
     | Some _ =>
         match (app.Bind_tokenRequest body (app.mkTokenRequest "" 0)).2 with
         | Some e => app.ErrInvalidRequest e
         | None => app.Respond_NoBody
         end
     end, s, [Called (app.Get cid)])
  /\ run app.store_handler
         (app.router (app.mkRequest cid (app.DELETE_token tokenID) body)) s
     = (match Atoi tokenID with
        | None => app.ErrBadRequest
        | Some _ => app.Respond_NoBody
        end, s, [Called (app.Get cid)]).
Proof.
  intros Hget Hforeign.
  unfold app.router, app.accountCtx, app.route_handler; simpl.
  rewrite Hget. unfold app.updateToken, app.deleteToken.
  destruct (Atoi tokenID) as [id |]; [| split; reflexivity].
  specialize (Hforeign id eq_refl).
  rewrite (deleteToken_range_foreign id _ Hforeign).
  split; [| reflexivity].
  destruct (app.Bind_tokenRequest body (app.mkTokenRequest "" 0)) as [data [e |]];
    simpl; [reflexivity |].
  rewrite (updateToken_range_foreign id data _ Hforeign). reflexivity.
Qed.

End ForeignToken.

(** ** Logout, whatever the store answers to the deletion *)

Section Logout.
Context `{auth.AuthConfig} `{GoLib}.
Context {S L : Type} `{auth.Storer S} `{auth.LoginTokenAuth L}.
Variable amb : auth.Ambient.

Local Abbreviation World := (auth.World S L).
Local Abbreviation exec p w := (run (auth.handler amb) p w).

(** C6 (as amended): [logout] with a resolvable token issues the deletion
    of the resolved record without looking at the record or at the
    account, and answers with success whatever the store answers to the
    deletion.  When the store has carried the deletion out, the token
    string is unresolvable; and in every world in which it is
    unresolvable, [refresh] and [logout] with that string answer
    token-expired and change nothing. *)
Theorem logout_issues_deletion `{!auth.StorerLaws S} (w : World) rt acc tok :
  auth.store_GetByRefreshToken rt (auth.w_store w) = Ok (acc, tok) ->
  exec (auth.logout rt) w
  = (auth.Respond_NoBody,
     auth.mkWorld (auth.store_DeleteRefreshToken tok (auth.w_store w)).2
                  (auth.w_login w) (auth.w_ticks w) (auth.w_draws w)
                  (auth.w_outbox w),
     [Called (auth.GetByRefreshToken rt); Called (auth.DeleteRefreshToken tok)])
  /\ ((auth.store_DeleteRefreshToken tok (auth.w_store w)).1 = None ->
      exists e,
        auth.store_GetByRefreshToken rt
          (auth.store_DeleteRefreshToken tok (auth.w_store w)).2 = Err e)
  /\ forall w2 : World,
       (exists e, auth.store_GetByRefreshToken rt (auth.w_store w2) = Err e) ->
       exec (auth.refresh rt) w2
       = (auth.ErrUnauthorized auth.errTokenExpired, w2,
          [Called (auth.GetByRefreshToken rt)])
       /\ exec (auth.logout rt) w2
          = (auth.ErrUnauthorized auth.errTokenExpired, w2,
             [Called (auth.GetByRefreshToken rt)]).
Proof.
  intros Hget. split; [| split].
  - unfold auth.logout. simpl. rewrite Hget. simpl. unfold auth.on_store.
    destruct (auth.store_DeleteRefreshToken tok (auth.w_store w)) as [err s1].
    reflexivity.
  - destruct (auth.store_DeleteRefreshToken tok (auth.w_store w)) as [err s1] eqn:Hdel.
    simpl. intros ->. eapply auth.delete_removes; eassumption.
  - intros w2 [e He]. eapply unresolvable_refresh_token. exact He.
Qed.

End Logout.

(** ** The table without deletions keeps the store's contract *)

Section StickyStore.

Lemma sticky_inv {X : Type} (r : X * mem.DB) x f :
  mem.sticky r = (x, f) -> r = (x, mem.loose f).
Proof.
  destruct r as [x0 db]. unfold mem.sticky. simpl. intros [= <- <-]. reflexivity.
Qed.

#[global] Instance Sticky_StorerLaws : auth.StorerLaws mem.Sticky.
Proof.
  split; simpl.
  - intros s id a Hget. exact (auth.resolved_id (mem.loose s) id a Hget).
  - intros s x a row Hget. exact (auth.resolved_has_key (mem.loose s) x a row Hget).
  - intros s x a row Hget. exact (auth.resolved_account (mem.loose s) x a row Hget).
  - intros s s' t t' a Hacc Hsave. apply sticky_inv in Hsave.
    exact (mem_save_stores _ _ _ _ _ Hacc Hsave).
  - intros s s' old a row t t' Hget Hid Hne Hsave. apply sticky_inv in Hsave.
    exact (mem_save_replaces _ _ _ _ _ _ _ Hget Hid Hne Hsave).
  - intros s s' x a row Hget Hdel. discriminate.
  - intros s s' acc r x Hupd. apply sticky_inv in Hupd.
    exact (mem_update_account_keeps _ _ _ _ x Hupd).
Qed.

End StickyStore.

(** ** The amended statements, and what they amend, in the small world *)

Section SmallWorldAmended.

Local Abbreviation exec p w := (run (auth.handler mem.ambient) p w).
Local Abbreviation store p s := (run app.store_handler p (s : mem.DB)).


(** The claim C4 as written fails for a request that does not pass input
    validation: token 3 is not Alice's, yet her rename without a body is
    answered with the invalid-request error, and her deletion of the
    token [abc] with the bad-request error; neither is a success. *)
Lemma foreign_token_malformed_requests_fail :
  ~ In 3 (List.map tk_ID (acc_Token sample.alice_loaded))
  /\ (store (app.router (app.mkRequest 1 (app.PUT_token "3") None)) sample.db0).1.1
     = app.ErrInvalidRequest (PlainError "render: unable to decode the request body")
  /\ (store (app.router (app.mkRequest 1 (app.PUT_token "3") None)) sample.db0).1.1
     <> app.Respond_NoBody
  /\ (store (app.router (app.mkRequest 1 (app.DELETE_token "abc") None)) sample.db0).1.1
     = app.ErrBadRequest
  /\ (store (app.router (app.mkRequest 1 (app.DELETE_token "abc") None)) sample.db0).1.1
     <> app.Respond_NoBody.
Proof.
  split. { simpl. intros [Heq | [Heq | []]]; discriminate. }
  split; [vm_compute; reflexivity |].
  split; [vm_compute; discriminate |].
  split; [vm_compute; reflexivity |].
  vm_compute. discriminate.
Qed.

(** Alice asks to rename and to delete Bob's token 3, and to delete the
    token [abc]. *)
Lemma foreign_token_request_outcomes_witness :
  store (app.router (app.mkRequest 1 (app.PUT_token "3") (sample.rename_body "mine")))
        sample.db0
  = (app.Respond_NoBody, sample.db0, [Called (app.Get 1)])
  /\ store (app.router (app.mkRequest 1 (app.DELETE_token "abc") None)) sample.db0
     = (app.ErrBadRequest, sample.db0, [Called (app.Get 1)]).
Proof.
  assert (Hget : app.Store_Get 1 sample.db0 = Ok sample.alice_loaded)
    by (vm_compute; reflexivity).
  assert (Hthree : forall id, Atoi "3" = Some id ->
                     ~ In id (List.map tk_ID (acc_Token sample.alice_loaded))).
  { intros id [= <-]. simpl. intros [Heq | [Heq | []]]; discriminate. }
  assert (Habc : forall id, Atoi "abc" = Some id ->
                   ~ In id (List.map tk_ID (acc_Token sample.alice_loaded))).
  { intros id Hid. discriminate Hid. }
  split.
  - rewrite (proj1 (foreign_token_request_outcomes 1 "3" (sample.rename_body "mine")
                      sample.alice_loaded sample.db0 Hget Hthree)).
    vm_compute. reflexivity.
  - rewrite (proj2 (foreign_token_request_outcomes 1 "abc" None
                      sample.alice_loaded sample.db0 Hget Habc)).
    reflexivity.
Defined.

(** The claim C6 as written fails when the store refuses the deletion:
    Alice's logout with [r1] answers with success, and so does her second
    logout with [r1]; a refresh with [r1] after the logout answers with a
    pair. *)
Lemma logout_refused_deletion_keeps_token :
  (exec (auth.logout "r1") sample.w_sticky).1.1 = auth.Respond_NoBody
  /\ (exec (auth.logout "r1") (exec (auth.logout "r1") sample.w_sticky).1.2).1.1
     = auth.Respond_NoBody
  /\ (exec (auth.logout "r1") (exec (auth.logout "r1") sample.w_sticky).1.2).1.1
     <> auth.ErrUnauthorized auth.errTokenExpired
  /\ (exec (auth.refresh "r1") (exec (auth.logout "r1") sample.w_sticky).1.2).1.1
     = auth.Respond_tokenResponse "access:alice@example.com" "refresh:uuid0".
Proof.
  split; [vm_compute; reflexivity |].
  split; [vm_compute; reflexivity |].
  split; [vm_compute; discriminate |].
  vm_compute. reflexivity.
Qed.

(** Alice logs out with [r1]: the database carries the deletion out, and
    her second logout and her refresh with [r1] are answered with
    token-expired. *)
Lemma logout_issues_deletion_witness :
  (exec (auth.logout "r1") sample.w0).1.1 = auth.Respond_NoBody
  /\ (exec (auth.logout "r1") (exec (auth.logout "r1") sample.w0).1.2).1.1
     = auth.ErrUnauthorized auth.errTokenExpired
  /\ (exec (auth.refresh "r1") (exec (auth.logout "r1") sample.w0).1.2).1.1
     = auth.ErrUnauthorized auth.errTokenExpired.
Proof.
  assert (Hget : auth.store_GetByRefreshToken "r1" (auth.w_store sample.w0)
                 = Ok (sample.alice, sample.r1))
    by (vm_compute; reflexivity).
  destruct (logout_issues_deletion mem.ambient sample.w0 "r1" _ _ Hget)
    as (Hout & Hgone & Hnext).
  assert (Hdone : (auth.store_DeleteRefreshToken sample.r1 (auth.w_store sample.w0)).1
                  = None) by (vm_compute; reflexivity).
  specialize (Hgone Hdone).
  rewrite Hout. simpl.
  destruct (Hnext (auth.mkWorld
                     (auth.store_DeleteRefreshToken sample.r1 (auth.w_store sample.w0)).2
                     (auth.w_login sample.w0) (auth.w_ticks sample.w0)
                     (auth.w_draws sample.w0) (auth.w_outbox sample.w0)) Hgone)
    as [Hrefresh Hlogout].
  simpl in Hrefresh, Hlogout. rewrite Hrefresh, Hlogout.
  repeat split.
Defined.

End SmallWorldAmended.
